(** * Audiobook chapter splitter: chapter detection and segmentation planning

    A shallow embedding of the chapter-detection core of [run.py]
    ([roman_to_int], [extract_title_from_text], [parse_srt_for_chapters],
    [sanitize_filename], [process_chapter_gaps] and the cache and cutting
    steps of [main]) together with the properties established about it.

    Conventions of the model.
    - Python [str] values are Rocq strings; a character stands for the code
      point of the same number (U+0000 to U+00FF).  Character classes and case
      mappings are those of Python's [str] methods on that range.
    - Python [int] values are [Z].
    - Python [float] values are IEEE 754 binary64 numbers, [spec_float] with
      precision 53 and maximal exponent 1024.
    - An exception that a [try] block of the source catches is an explicit
      outcome of the modelled function. *)

From Stdlib Require Import ZArith Lia Bool List Ascii String.
From Stdlib Require Import Decimal DecimalN DecimalString SpecFloat.
From stdpp Require Import base option list strings sorting.

Local Open Scope string_scope.
Local Open Scope Z_scope.

(** ** Characters *)

Module Char.

Definition code (c : ascii) : N := N_of_ascii c.

Definition in_range (lo hi : N) (c : ascii) : bool :=
  ((lo <=? code c) && (code c <=? hi))%N.

(** [str.isspace] on one character. *)
Definition isspace (c : ascii) : bool :=
  in_range 9 13 c || in_range 28 32 c
  || (code c =? 133)%N || (code c =? 160)%N.

(** [str.lower] on one character. *)
Definition lower (c : ascii) : ascii :=
  if in_range 65 90 c
     || (in_range 192 222 c && negb (code c =? 215)%N)
  then ascii_of_N (code c + 32) else c.

(** [str.upper] on one character.  The three characters whose upper case
    leaves the modelled range (U+00B5, U+00DF, U+00FF) are left as they
    are; neither they nor their upper-case forms are Roman digits. *)
Definition upper (c : ascii) : ascii :=
  if in_range 97 122 c
     || (in_range 224 254 c && negb (code c =? 247)%N)
  then ascii_of_N (code c - 32) else c.

(** [str.isalpha] on one character. *)
Definition isalpha (c : ascii) : bool :=
  in_range 65 90 c || in_range 97 122 c
  || (code c =? 170)%N || (code c =? 181)%N || (code c =? 186)%N
  || in_range 192 214 c || in_range 216 246 c || in_range 248 255 c.

(** [str.isdigit] on one character. *)
Definition isdigit (c : ascii) : bool :=
  in_range 48 57 c
  || (code c =? 178)%N || (code c =? 179)%N || (code c =? 185)%N.

(** The characters [0] to [9]. *)
Definition is_decimal (c : ascii) : bool := in_range 48 57 c.

Definition decimal_value (c : ascii) : Z := Z.of_N (code c) - 48.

Definition eqb (a b : ascii) : bool := Ascii.eqb a b.

(** Membership of a character in the characters of a string, as in the
    argument of [str.strip(chars)]. *)
Fixpoint among (chars : string) (c : ascii) : bool :=
  match chars with
  | EmptyString => false
  | String d rest => eqb c d || among rest c
  end.

End Char.

(** ** String methods *)

Module Str.

Definition is_empty (s : string) : bool :=
  match s with EmptyString => true | String _ _ => false end.

Definition snoc (s : string) (c : ascii) : string := s +:+ String c "".

Fixpoint map (f : ascii -> ascii) (s : string) : string :=
  match s with
  | EmptyString => EmptyString
  | String c rest => String (f c) (map f rest)
  end.

Fixpoint forallb (p : ascii -> bool) (s : string) : bool :=
  match s with
  | EmptyString => true
  | String c rest => p c && forallb p rest
  end.

Definition lower : string -> string := map Char.lower.
Definition upper : string -> string := map Char.upper.

(** [s.isalpha()] and [s.isdigit()]: false on the empty string. *)
Definition isalpha (s : string) : bool := negb (is_empty s) && forallb Char.isalpha s.
Definition isdigit (s : string) : bool := negb (is_empty s) && forallb Char.isdigit s.

Fixpoint lstrip_by (p : ascii -> bool) (s : string) : string :=
  match s with
  | EmptyString => EmptyString
  | String c rest => if p c then lstrip_by p rest else s
  end.

Fixpoint rstrip_by (p : ascii -> bool) (s : string) : string :=
  match s with
  | EmptyString => EmptyString
  | String c rest =>
      let rest' := rstrip_by p rest in
      if is_empty rest' && p c then EmptyString else String c rest'
  end.

Definition strip_by (p : ascii -> bool) (s : string) : string :=
  rstrip_by p (lstrip_by p s).

(** [s.strip()], [s.strip(chars)], [s.rstrip(chars)]. *)
Definition strip (s : string) : string := strip_by Char.isspace s.
Definition strip_chars (chars s : string) : string := strip_by (Char.among chars) s.
Definition rstrip_chars (chars s : string) : string := rstrip_by (Char.among chars) s.

(** [s.split()]: the maximal runs of non-whitespace characters. *)
Fixpoint split_ws_from (cur s : string) : list string :=
  match s with
  | EmptyString => if is_empty cur then [] else [cur]
  | String c rest =>
      if Char.isspace c
      then (if is_empty cur then split_ws_from "" rest
            else cur :: split_ws_from "" rest)
      else split_ws_from (snoc cur c) rest
  end.

Definition split_ws (s : string) : list string := split_ws_from "" s.

(** [s.split(sep)] for a non-empty separator: the occurrences of [sep] are
    found from left to right and do not overlap.  [skip] counts the
    characters of the current occurrence still to be passed over. *)
Fixpoint split_from (sep : string) (skip : nat) (cur s : string) : list string :=
  match s with
  | EmptyString => [cur]
  | String c rest =>
      match skip with
      | S k => split_from sep k cur rest
      | O =>
          if String.prefix sep s
          then cur :: split_from sep (Nat.pred (String.length sep)) "" rest
          else split_from sep 0 (snoc cur c) rest
      end
  end.

Definition split (sep s : string) : list string := split_from sep 0 "" s.

(** [sep.join(parts)]. *)
Definition join (sep : string) (parts : list string) : string :=
  String.concat sep parts.


(** [s[:n]]. *)
Fixpoint take (n : nat) (s : string) : string :=
  match n, s with
  | S k, String c rest => String c (take k rest)
  | _, _ => EmptyString
  end.

Fixpoint filter (p : ascii -> bool) (s : string) : string :=
  match s with
  | EmptyString => EmptyString
  | String c rest => if p c then String c (filter p rest) else filter p rest
  end.

Fixpoint replicate (n : nat) (c : ascii) : string :=
  match n with
  | O => EmptyString
  | S k => String c (replicate k c)
  end.

End Str.

(** ** Integers: [int(s)] and the format specification [03] *)

Module PyInt.

(** Digits of a decimal literal; single underscores may separate digits. *)
Fixpoint digits (after_digit : bool) (acc : Z) (s : string) : option Z :=
  match s with
  | EmptyString => if after_digit then Some acc else None
  | String c rest =>
      if Char.is_decimal c then digits true (10 * acc + Char.decimal_value c) rest
      else if Char.eqb c "_" then
             (if after_digit then digits false acc rest else None)
      else None
  end.

(** The whitespace that [int] skips around a literal: the ASCII whitespace
    and, above U+007F, the characters that [str.isspace] accepts.  The
    separators U+001C to U+001F are whitespace for the methods of [str] and
    not for [int]. *)
Definition int_space (c : ascii) : bool :=
  Char.in_range 9 13 c || (Char.code c =? 32)%N
  || (Char.code c =? 133)%N || (Char.code c =? 160)%N.

(** The interpreter's limit on the number of digits of a decimal literal
    ([sys.get_int_max_str_digits()], 4300 unless the user changes it). *)
Definition max_str_digits : nat := 4300.

Definition count_digits (s : string) : nat :=
  String.length (Str.filter Char.is_decimal s).

(** [int(s)]: [None] stands for [ValueError].  Surrounding whitespace is
    ignored, one sign is accepted, and a literal of more than
    [max_str_digits] digits is refused. *)
Definition of_string (s : string) : option Z :=
  let literal := Str.strip_by int_space s in
  if (count_digits literal <=? max_str_digits)%nat then
    match literal with
    | String "+" rest => digits false 0 rest
    | String "-" rest => Z.opp <$> digits false 0 rest
    | body => digits false 0 body
    end
  else None.

Definition decimal (n : N) : string := NilZero.string_of_uint (N.to_uint n).

Definition zfill (width : nat) (s : string) : string :=
  Str.replicate (width - String.length s) "0" +:+ s.

(** [f"{n:03}"]: zero padding to a width of three characters, the sign
    included. *)
Definition format_03 (n : Z) : string :=
  if n <? 0 then "-" +:+ zfill 2 (decimal (Z.abs_N n))
  else zfill 3 (decimal (Z.abs_N n)).

(** [f"{n:0{width}d}"]: zero padding to [width] characters, the sign
    included. *)
Definition format_zero (width : nat) (n : Z) : string :=
  if n <? 0 then "-" +:+ zfill (width - 1) (decimal (Z.abs_N n))
  else zfill width (decimal (Z.abs_N n)).

End PyInt.

(** ** Floats *)

Module PyFloat.

Definition float : Type := spec_float.

Definition prec : Z := 53.
Definition emax : Z := 1024.

Definition zero : float := S754_zero false.

(** [float(n)] for an integer [n]; an integer too large for a float gives
    an infinity here and [OverflowError] in Python, see [finite]. *)
Definition of_Z (n : Z) : float :=
  match n with
  | Z0 => zero
  | Zpos p => binary_normalize prec emax (Zpos p) 0 false
  | Zneg p => binary_normalize prec emax (Zneg p) 0 true
  end.

Definition mul (x y : float) : float := SFmul prec emax x y.
Definition add (x y : float) : float := SFadd prec emax x y.
Definition div (x y : float) : float := SFdiv prec emax x y.
Definition eqb (x y : float) : bool := SFeqb x y.

(** [a / b] for integers [a] and [b > 0]: the float nearest to the exact
    quotient, an infinity where Python raises [OverflowError]. *)
Definition true_div (a : Z) (b : positive) : float :=
  match a with
  | Z0 => zero
  | Zpos p => SFdiv prec emax (S754_finite false p 0) (S754_finite false b 0)
  | Zneg p => SFdiv prec emax (S754_finite true p 0) (S754_finite false b 0)
  end.

Definition finite (x : float) : bool :=
  match x with
  | S754_zero _ | S754_finite _ _ _ => true
  | S754_infinity _ | S754_nan => false
  end.

(** [int(x)]: truncation towards zero; [None] stands for the [ValueError]
    or [OverflowError] raised on a NaN or an infinity. *)
Definition to_int (x : float) : option Z :=
  match x with
  | S754_zero _ => Some 0
  | S754_finite s m e =>
      let magnitude :=
        match e with
        | Z0 => Zpos m
        | Zpos k => Z.shiftl (Zpos m) (Zpos k)
        | Zneg k => Z.shiftr (Zpos m) (Zpos k)
        end in
      Some (if s then - magnitude else magnitude)
  | S754_infinity _ | S754_nan => None
  end.

(** [x <= y]; false when one of the two is a NaN. *)
Definition leb (x y : float) : bool := SFleb x y.

(** [round(x)]: the nearest integer, the even one of two that are equally
    near; [None] stands for the [ValueError] or [OverflowError] raised on a
    NaN or an infinity. *)
Definition round_half_even (x : float) : option Z :=
  match x with
  | S754_zero _ => Some 0
  | S754_finite s m e =>
      let magnitude :=
        match e with
        | Z0 => Zpos m
        | Zpos k => Z.shiftl (Zpos m) (Zpos k)
        | Zneg k =>
            let q := Z.shiftr (Zpos m) (Zpos k) in
            let r := Zpos m - Z.shiftl q (Zpos k) in
            let half := Z.shiftl 1 (Zpos k - 1) in
            if (half <? r) || ((r =? half) && Z.odd q) then q + 1 else q
        end in
      Some (if s then - magnitude else magnitude)
  | S754_infinity _ | S754_nan => None
  end.

End PyFloat.

Abbreviation float := PyFloat.float.

(** ** Chapter records *)

(** A chapter as the scanner, the cache and the metadata adapter build it:
    a dict with the keys [number], [start_time] and, optionally, [title]. *)
Record chapter : Type := Chapter {
  number : Z;
  start_time : float;
  title : option string
}.

(** An element of the list [process_chapter_gaps] returns. *)
Record processed_chapter : Type := Processed {
  pc_start_time : float;
  pc_title : string;
  number_str : string
}.

(** ** The chapter sequencer *)

Definition process_chapter_gaps (chapters : list chapter) : list processed_chapter :=
  imap (fun (i : nat) (current_chap : chapter) =>
    let start_time' :=
      if bool_decide (i = 0%nat) then PyFloat.zero else start_time current_chap in
    let is_last_chapter := bool_decide (i = (length chapters - 1)%nat) in
    let next_chap_number :=
      if is_last_chapter then None else number <$> chapters !! (i + 1)%nat in
    let number_str' :=
      if is_last_chapter then PyInt.format_03 (number current_chap)
      else match next_chap_number with
           | Some next =>
               if bool_decide (next > number current_chap + 1)
               then PyInt.format_03 (number current_chap)
                      +:+ "-" +:+ PyInt.format_03 (next - 1)
               else PyInt.format_03 (number current_chap)
           | None => PyInt.format_03 (number current_chap)
           end in
    {| pc_start_time := start_time';
       pc_title := default "" (title current_chap);
       number_str := number_str' |}) chapters.

(** ** Roman numerals *)

Definition roman_map (c : ascii) : option Z :=
  match c with
  | "I"%char => Some 1
  | "V"%char => Some 5
  | "X"%char => Some 10
  | "L"%char => Some 50
  | "C"%char => Some 100
  | "D"%char => Some 500
  | "M"%char => Some 1000
  | _ => None
  end.

(** The loop of [roman_to_int]: [prev] is the value of [s[i - 1]], absent
    when [i = 0]; [None] stands for the [KeyError] of a character that is
    not a Roman digit. *)
Fixpoint roman_loop (prev : option Z) (result : Z) (s : string) : option Z :=
  match s with
  | EmptyString => Some result
  | String c rest =>
      match roman_map c with
      | None => None
      | Some v =>
          match prev with
          | Some p =>
              if bool_decide (v > p)
              then roman_loop (Some v) (result + (v - 2 * p)) rest
              else roman_loop (Some v) (result + v) rest
          | None => roman_loop (Some v) (result + v) rest
          end
      end
  end.

Definition roman_to_int (s : string) : option Z :=
  roman_loop None 0 (Str.upper s).

(** ** Spelled-out numbers

    [w2n.word_to_num] belongs to the package word2number, which the program
    imports.  Its outcomes, as the scanner tells them apart: an integer; a
    float, which the package returns for a number with a "point" part
    ([one-point-five] gives 1.5); the exception [ValueError], which the
    scanner catches; and an exception of another class (the [IndexError] of
    an incomplete compound such as [thousand-one]), which ends the scan of
    the whole transcript. *)
Inductive w2n_outcome : Type :=
| W2N_int (n : Z)
| W2N_float (x : float)
| W2N_ValueError
| W2N_other.

Module W2N.

Definition american_number_system : list (string * Z) :=
  [ ("zero", 0); ("one", 1); ("two", 2); ("three", 3); ("four", 4);
    ("five", 5); ("six", 6); ("seven", 7); ("eight", 8); ("nine", 9);
    ("ten", 10); ("eleven", 11); ("twelve", 12); ("thirteen", 13);
    ("fourteen", 14); ("fifteen", 15); ("sixteen", 16); ("seventeen", 17);
    ("eighteen", 18); ("nineteen", 19); ("twenty", 20); ("thirty", 30);
    ("forty", 40); ("fifty", 50); ("sixty", 60); ("seventy", 70);
    ("eighty", 80); ("ninety", 90); ("hundred", 100); ("thousand", 1000);
    ("million", 1000000); ("billion", 1000000000) ].

Fixpoint lookup (w : string) (table : list (string * Z)) : option Z :=
  match table with
  | [] => None
  | (k, v) :: rest => if String.eqb w k then Some v else lookup w rest
  end.

Definition is_point (w : string) : bool := String.eqb w "point".

Definition is_number_word (w : string) : bool :=
  is_point w || bool_decide (is_Some (lookup w american_number_system)).

Definition is_decimal_word (w : string) : bool :=
  match lookup w american_number_system with
  | Some v => bool_decide (v <= 9)
  | None => false
  end.

Definition value (w : string) : Z := default 0 (lookup w american_number_system).

Definition count (w : string) (l : list string) : nat :=
  length (List.filter (String.eqb w) l).

(** [l.index(w) if w in l else -1]. *)
Fixpoint index_from (i : Z) (w : string) (l : list string) : Z :=
  match l with
  | [] => -1
  | x :: rest => if String.eqb w x then i else index_from (i + 1) w rest
  end.

Definition index (w : string) (l : list string) : Z := index_from 0 w l.

(** [l[a:b]] for [0 <= a]. *)
Definition slice (a b : Z) (l : list string) : list string :=
  take (Z.to_nat (b - a)) (drop (Z.to_nat a) l).

(** [number_formation]: [None] stands for the [IndexError] raised on an
    empty list. *)
Definition number_formation (number_words : list string) : option Z :=
  match List.map value number_words with
  | [] => None
  | [n0; n1; n2; n3] => Some (n0 * n1 + n2 + n3)
  | [n0; n1; n2] => Some (n0 * n1 + n2)
  | [n0; n1] =>
      if bool_decide (n0 = 100) || bool_decide (n1 = 100)
      then Some (n0 * n1) else Some (n0 + n1)
  | n0 :: _ => Some n0
  end.

(** The sum built from two or more number words. *)
Definition compound (clean_numbers : list string) : option Z :=
  let billion_index := index "billion" clean_numbers in
  let million_index := index "million" clean_numbers in
  let thousand_index := index "thousand" clean_numbers in
  let last := Z.of_nat (length clean_numbers) - 1 in
  let all := Z.of_nat (length clean_numbers) in
  billions ←
    (if bool_decide (billion_index > -1)
     then (fun m => m * 1000000000) <$>
            number_formation (slice 0 billion_index clean_numbers)
     else Some 0);
  millions ←
    (if bool_decide (million_index > -1)
     then (fun m => m * 1000000) <$>
            (if bool_decide (billion_index > -1)
             then number_formation (slice (billion_index + 1) million_index clean_numbers)
             else number_formation (slice 0 million_index clean_numbers))
     else Some 0);
  thousands ←
    (if bool_decide (thousand_index > -1)
     then (fun m => m * 1000) <$>
            (if bool_decide (million_index > -1)
             then number_formation (slice (million_index + 1) thousand_index clean_numbers)
             else if bool_decide (billion_index > -1)
             then number_formation (slice (billion_index + 1) thousand_index clean_numbers)
             else number_formation (slice 0 thousand_index clean_numbers))
     else Some 0);
  hundreds ←
    (if bool_decide (thousand_index > -1) && negb (bool_decide (thousand_index = last))
     then number_formation (slice (thousand_index + 1) all clean_numbers)
     else if bool_decide (million_index > -1) && negb (bool_decide (million_index = last))
     then number_formation (slice (million_index + 1) all clean_numbers)
     else if bool_decide (billion_index > -1) && negb (bool_decide (billion_index = last))
     then number_formation (slice (billion_index + 1) all clean_numbers)
     else if bool_decide (thousand_index = -1) && bool_decide (million_index = -1)
             && bool_decide (billion_index = -1)
     then number_formation clean_numbers
     else Some 0);
  Some (billions + millions + thousands + hundreds).

(** [get_decimal_sum] on decimal words: the float read from ["0."]
    followed by their digits. *)
Definition get_decimal_sum (decimal_digit_words : list string) : float :=
  PyFloat.true_div
    (fold_left (fun acc w => 10 * acc + value w) decimal_digit_words 0)
    (Pos.pow 10 (Pos.of_nat (length decimal_digit_words))).

(** [w2n.word_to_num] (word2number 1.1) on a string. *)
Definition word_to_num (number_sentence : string) : w2n_outcome :=
  let number_sentence :=
    Str.lower (Str.map (fun c => if Char.eqb c "-" then " "%char else c)
                       number_sentence) in
  if Str.isdigit number_sentence then
    match PyInt.of_string number_sentence with
    | Some n => W2N_int n
    | None => W2N_ValueError
    end
  else
    let split_words := Str.split_ws (Str.strip number_sentence) in
    let clean_numbers := List.filter is_number_word split_words in
    if (length clean_numbers =? 0)%nat then W2N_ValueError
    else if (1 <? count "thousand" clean_numbers)%nat
            || (1 <? count "million" clean_numbers)%nat
            || (1 <? count "billion" clean_numbers)%nat
            || (1 <? count "point" clean_numbers)%nat
    then W2N_ValueError
    else
      let has_point := (count "point" clean_numbers =? 1)%nat in
      let point_index := index "point" clean_numbers in
      let clean_decimal_numbers :=
        if has_point
        then slice (point_index + 1) (Z.of_nat (length clean_numbers)) clean_numbers
        else [] in
      let clean_numbers :=
        if has_point then slice 0 point_index clean_numbers else clean_numbers in
      let billion_index := index "billion" clean_numbers in
      let million_index := index "million" clean_numbers in
      let thousand_index := index "thousand" clean_numbers in
      if (bool_decide (thousand_index > -1)
          && (bool_decide (thousand_index < million_index)
              || bool_decide (thousand_index < billion_index)))
         || (bool_decide (million_index > -1)
             && bool_decide (million_index < billion_index))
      then W2N_ValueError
      else
        let total_sum :=
          match clean_numbers with
          | [] => Some 0
          | [w] => Some (value w)
          | _ => compound clean_numbers
          end in
        match total_sum with
        | None => W2N_other
        | Some total =>
            if negb (length clean_decimal_numbers =? 0)%nat
               && forallb is_decimal_word clean_decimal_numbers
            then W2N_float (PyFloat.add (PyFloat.of_Z total)
                                        (get_decimal_sum clean_decimal_numbers))
            else W2N_int total
        end.

End W2N.

(** ** The numeral resolver and the marker scanner *)

(** The outcome of the three attempts on a word: a number, an integer or a
    float; [Unresolved] when the three attempts fail with exceptions that the
    scanner catches; [Raised] for another exception. *)
Inductive resolution : Type :=
| Resolved (chapter_number : Z)
| ResolvedFloat (chapter_number : float)
| Unresolved
| Raised.

Inductive scan_result : Type :=
| Hit (chapter_number : Z) (following : list string)
| HitFloat (chapter_number : float) (following : list string)
| NoHit
| ScanRaised.


(** ** The title extractor *)

Definition ABBREVIATIONS : list string :=
  ["mr"; "mrs"; "ms"; "dr"; "prof"; "st"; "vol"; "no"; "etc"; "rev"; "capt"].

Definition sentence_end (c : ascii) : bool := Char.among ".?!" c.

(** [re.split(r'(?<=[.?!])\s+', text)].  A match is a maximal run of
    whitespace that follows one of [.], [?], [!].  [in_match] holds while such
    a run is being passed over, [after_end] when the character before the
    current one is one of the three. *)
Fixpoint split_sentences_from (in_match after_end : bool) (cur s : string)
  : list string :=
  match s with
  | EmptyString => [cur]
  | String c rest =>
      if Char.isspace c && (in_match || after_end)
      then (if in_match then split_sentences_from true false cur rest
            else cur :: split_sentences_from true false "" rest)
      else split_sentences_from false (sentence_end c) (Str.snoc cur c) rest
  end.

Definition split_sentences (text : string) : list string :=
  split_sentences_from false false "" text.

(** The test that ends the loop over the sentences: [true] when the loop
    goes on to the next sentence ([continue]), [false] when it stops
    ([break]). *)
Definition continues_after (sentence : string) : bool :=
  match last (Str.split_ws (Str.rstrip_chars ".?!" sentence)) with
  | None => false
  | Some w =>
      let last_word := Str.lower w in
      bool_decide (last_word ∈ ABBREVIATIONS)
      || ((String.length last_word =? 1)%nat && Str.isalpha last_word)
  end.

Fixpoint title_parts (sentences : list string) : list string :=
  match sentences with
  | [] => []
  | sentence :: rest =>
      sentence :: (if continues_after sentence then title_parts rest else [])
  end.

Definition extract_title_from_text (text : string) : string :=
  if Str.is_empty text then ""
  else
    let sentences := split_sentences text in
    let full_title := Str.strip (Str.join " " (title_parts sentences)) in
    Str.strip (Str.rstrip_chars ".?!" full_title).

(** ** Transcript times *)

Definition newline : string := String (ascii_of_N 10) "".

(** [srt_time_to_seconds]: [None] stands for an exception (a field that is
    not an integer, a wrong number of fields, an integer or a quotient too
    large for a float). *)
Definition srt_time_to_seconds (time_str : string) : option float :=
  match Str.split ":" time_str with
  | [h; m; s_ms] =>
      match Str.split "," s_ms with
      | [s; ms] =>
          h ← PyInt.of_string h;
          m ← PyInt.of_string m;
          s ← PyInt.of_string s;
          ms ← PyInt.of_string ms;
          let whole := PyFloat.of_Z (h * 3600 + m * 60 + s) in
          let fraction := PyFloat.true_div ms 1000 in
          if PyFloat.finite whole && PyFloat.finite fraction
          then Some (PyFloat.add whole fraction) else None
      | _ => None
      end
  | _ => None
  end.

(** ** Sorting by chapter number

    [chapters.sort(key=lambda x: x["number"])] is a stable sort; the stable
    sorted arrangement of a list is unique, and insertion builds it. *)
Fixpoint insert_by_number (c : chapter) (sorted : list chapter) : list chapter :=
  match sorted with
  | [] => [c]
  | d :: rest =>
      if bool_decide (number c <= number d) then c :: d :: rest
      else d :: insert_by_number c rest
  end.

Definition sort_by_number (chapters : list chapter) : list chapter :=
  foldr insert_by_number [] chapters.

(** ** The marker scanner *)

Section Scanner.

(** The function [w2n.word_to_num] of the imported package. *)
Variable word_to_num : string -> w2n_outcome.

(** The three attempts made on the word that follows "chapter". *)
Definition resolve (next_word : string) : resolution :=
  let next_word_cleaned :=
    Str.strip_chars ".,?!" (Str.lower (Str.strip next_word)) in
  match PyInt.of_string next_word_cleaned with
  | Some n => Resolved n
  | None =>
      match word_to_num next_word_cleaned with
      | W2N_int n => Resolved n
      | W2N_float x => ResolvedFloat x
      | W2N_other => Raised
      | W2N_ValueError =>
          match roman_to_int next_word_cleaned with
          | Some n => Resolved n
          | None => Unresolved
          end
      end
  end.

Definition is_chapter_word (word : string) : bool :=
  String.eqb (Str.strip_chars ".,?!" (Str.lower word)) "chapter".

(** The loop over the words of one cue. *)
Fixpoint scan_words (words : list string) : scan_result :=
  match words with
  | [] => NoHit
  | word :: rest =>
      if is_chapter_word word then
        match rest with
        | next_word :: following =>
            match resolve next_word with
            | Resolved n => Hit n following
            | ResolvedFloat x => HitFloat x following
            | Unresolved => scan_words rest
            | Raised => ScanRaised
            end
        | [] => scan_words rest
        end
      else scan_words rest
  end.

(** The text lines of a block, joined, when the block has at least three
    lines. *)
Definition block_lines (block : string) : list string :=
  Str.split newline (Str.strip block).





End Scanner.

(** ** The chapter cache *)

(** What [json.load] meets in an existing cache file: a list of chapter
    records, or something that makes the loading code raise. *)
Inductive cache_file : Type :=
| CacheChapters (records : list chapter)
| CacheUnreadable.

(** [chapters and 'title' in chapters[0]]: the empty list itself ([None]
    here) when there is no record, else a boolean. *)
Definition cache_has_title (chapters : list chapter) : option bool :=
  match chapters with
  | [] => None
  | first :: _ => Some (bool_decide (is_Some (title first)))
  end.

(** The chapters after the cache has been consulted: [chapters] are those of
    the embedded metadata, [json_file] the cache file if there is one. *)
Definition load_cache (extract_title : bool) (chapters : list chapter)
    (json_file : option cache_file) : list chapter :=
  match chapters, json_file with
  | [], Some (CacheChapters cached) =>
      if bool_decide (cache_has_title cached ≠ Some extract_title)
      then [] else cached
  | [], Some CacheUnreadable => []
  | _, _ => chapters
  end.

(** The cache file after the saving step. *)
Definition save_cache (chapters : list chapter) (json_file : option cache_file)
  : option cache_file :=
  match chapters, json_file with
  | _ :: _, None => Some (CacheChapters chapters)
  | _, _ => json_file
  end.

(** ** File names and the cut plan *)

Definition illegal_in_filename (c : ascii) : bool :=
  Char.among "\/*?:<>|" c || (Char.code c =? 34)%N.

(** [re.sub(r'\s+', '.', s)]. *)
Fixpoint collapse_whitespace (in_run : bool) (s : string) : string :=
  match s with
  | EmptyString => EmptyString
  | String c rest =>
      if Char.isspace c
      then (if in_run then collapse_whitespace true rest
            else String "." (collapse_whitespace true rest))
      else String c (collapse_whitespace false rest)
  end.

Definition sanitize_filename (name : string) : string :=
  let sanitized_name := Str.filter (fun c => negb (illegal_in_filename c)) name in
  let sanitized_name := collapse_whitespace false sanitized_name in
  Str.take 100 (Str.strip_chars "." sanitized_name).

Record segment : Type := Segment {
  start_ms : Z;
  end_ms : Z;
  output_filename : string
}.

(** [int(t * 1000)]. *)
Definition milliseconds (t : float) : option Z :=
  PyFloat.to_int (PyFloat.mul t (PyFloat.of_Z 1000)).

(** The synthetic last element of [chapters_to_cut]. *)
Definition end_marker (total_duration_sec : float) : processed_chapter :=
  {| pc_start_time := total_duration_sec; pc_title := ""; number_str := "end" |}.

(** One turn of the cutting loop; [None] stands for the exception of
    [int] on a NaN or an infinity. *)
Definition cut_segment (extract_title : bool)
    (current_chapter next_chapter : processed_chapter) : option segment :=
  start ←
    (if PyFloat.eqb (pc_start_time current_chapter) PyFloat.zero then Some 0
     else (fun v => Z.max 0 (v - 500)) <$> milliseconds (pc_start_time current_chapter));
  stop ← milliseconds (pc_start_time next_chapter);
  Some {| start_ms := start;
          end_ms := stop;
          output_filename :=
            if extract_title
            then number_str current_chapter +:+ "."
                   +:+ sanitize_filename (pc_title current_chapter) +:+ ".mp3"
            else number_str current_chapter +:+ ".mp3" |}.

(** The cutting loop over [chapters_to_cut]: the segments exported, and
    whether the loop ran to its end. *)
Fixpoint cut_loop (extract_title : bool) (chapters_to_cut : list processed_chapter)
  : list segment * bool :=
  match chapters_to_cut with
  | current_chapter :: rest =>
      match rest with
      | next_chapter :: _ =>
          match cut_segment extract_title current_chapter next_chapter with
          | Some seg =>
              let '(segments, completed) := cut_loop extract_title rest in
              (seg :: segments, completed)
          | None => ([], false)
          end
      | [] => ([], true)
      end
  | [] => ([], true)
  end.

Definition cut_plan (extract_title : bool) (chapters : list chapter)
    (total_duration_sec : float) : list segment * bool :=
  let processed_chapters := process_chapter_gaps chapters in
  let chapters_to_cut :=
    (processed_chapters ++ [end_marker total_duration_sec])%list in
  cut_loop extract_title chapters_to_cut.


(** ** Writing the transcript *)

(** [format_srt_time]: [None] stands for the failed assertion on a negative
    time or a NaN, and for the exception of [round] on an infinity. *)
Definition format_srt_time (seconds : float) : option string :=
  if PyFloat.leb PyFloat.zero seconds then
    total ← PyFloat.round_half_even (PyFloat.mul seconds (PyFloat.of_Z 1000));
    let hours := total / 3600000 in
    let minutes := total mod 3600000 / 60000 in
    let seconds := total mod 60000 / 1000 in
    let milliseconds := total mod 1000 in
    Some (PyInt.format_zero 2 hours +:+ ":" +:+ PyInt.format_zero 2 minutes +:+ ":"
            +:+ PyInt.format_zero 2 seconds +:+ "," +:+ PyInt.format_zero 3 milliseconds)
  else None.

(** A segment of the transcription: its times and its text. *)
Record transcript_segment : Type := TranscriptSegment {
  seg_start : float;
  seg_end : float;
  seg_text : string
}.

(** The loop of [write_srt_file] from segment [i] on: the text written and
    whether the loop ran to its end.  An exception of [format_srt_time] ends
    the loop after the index line of the segment has been written. *)
Fixpoint write_srt_blocks (i : nat) (segments : list transcript_segment)
  : string * bool :=
  match segments with
  | [] => ("", true)
  | segment :: rest =>
      let index_line := PyInt.decimal (N.of_nat (i + 1)) +:+ newline in
      match format_srt_time (seg_start segment), format_srt_time (seg_end segment) with
      | Some start, Some stop =>
          let '(later, completed) := write_srt_blocks (S i) rest in
          (index_line +:+ start +:+ " --> " +:+ stop +:+ newline
             +:+ Str.strip (seg_text segment) +:+ newline +:+ newline +:+ later,
           completed)
      | _, _ => (index_line, false)
      end
  end.

(** [write_srt_file]: the content of the file written. *)
Definition write_srt_file (segments : list transcript_segment) : string * bool :=
  write_srt_blocks 0 segments.

(** ** Chapters embedded in the recording *)

(** An entry of the chapter list the probe returns: its start time after
    [float(...)], absent when the conversion raises, and the title of its
    tags, if any. *)
Record probe_chapter : Type := ProbeChapter {
  probe_start_time : option float;
  probe_title : option string
}.

(** The loop of [extract_embedded_chapters]: [None] stands for an
    exception. *)
Fixpoint embedded_from (i : nat) (probe_chapters : list probe_chapter)
  : option (list chapter) :=
  match probe_chapters with
  | [] => Some []
  | chap :: rest =>
      start ← probe_start_time chap;
      later ← embedded_from (S i) rest;
      Some ({| number := Z.of_nat i + 1;
               start_time := start;
               title := Some (default ("Chapter " +:+ PyInt.decimal (N.of_nat (i + 1)))
                                      (probe_title chap)) |} :: later)
  end.

(** [extract_embedded_chapters] on the chapter list of the probe (empty when
    the probe has none): an exception gives the empty list. *)
Definition extract_embedded_chapters (probe_chapters : list probe_chapter)
  : list chapter :=
  default [] (embedded_from 0 probe_chapters).

(** ** Reading a text file

    [f.read()] on a file opened in text mode: a carriage return, alone or
    followed by a line feed, is read as a line feed.  (The text written to a
    file in text mode is stored as it is where the line separator of the
    system is the line feed.) *)
Fixpoint read_text (stored : string) : string :=
  match stored with
  | EmptyString => EmptyString
  | String c rest =>
      if (Char.code c =? 13)%N then
        String (ascii_of_N 10)
          match rest with
          | String d rest' =>
              if (Char.code d =? 10)%N then read_text rest' else read_text rest
          | EmptyString => EmptyString
          end
      else String c (read_text rest)
  end.

(** ** Finding the chapters of a recording *)

Section Detection.

Variable word_to_num : string -> w2n_outcome.


End Detection.

(** * Vocabulary of the properties *)

(** ** Labels *)

(** The label the sequencer is meant to give to a chapter numbered [own]
    that is followed by a chapter numbered [next], if any. *)
Definition gap_label (own : Z) (next : option Z) : string :=
  match next with
  | Some n =>
      if bool_decide (n > own + 1)
      then PyInt.format_03 own +:+ "-" +:+ PyInt.format_03 (n - 1)
      else PyInt.format_03 own
  | None => PyInt.format_03 own
  end.

Definition digit_char (d : Z) : ascii := ascii_of_N (Z.to_N (48 + d)).

(** A number written with exactly three decimal digits. *)
Definition three_digits (n : Z) : string :=
  String (digit_char (n / 100))
    (String (digit_char (n / 10 mod 10)) (String (digit_char (n mod 10)) "")).

(** ** Numerals *)

Definition roman_digit_value (v : Z) : Prop :=
  v = 1 \/ v = 5 \/ v = 10 \/ v = 50 \/ v = 100 \/ v = 500 \/ v = 1000.

(** The word after "chapter" as the resolver reads it. *)
Definition cleaned (next_word : string) : string :=
  Str.strip_chars ".,?!" (Str.lower (Str.strip next_word)).

(** The outcome of the scan of a cue that is decided by a word whose
    resolution is [r], [following] being the words after it. *)
Definition scan_outcome (r : resolution) (following : list string) : scan_result :=
  match r with
  | Resolved n => Hit n following
  | ResolvedFloat x => HitFloat x following
  | Unresolved => NoHit
  | Raised => ScanRaised
  end.


(** [next_word] follows a "chapter" word, the word at position [i], in
    [words]. *)
Definition announced_at (words : list string) (i : nat) (next_word : string) : Prop :=
  exists word, words !! i = Some word /\ is_chapter_word word = true /\
               words !! S i = Some next_word.

(** Case analysis on the 256 characters. *)
Ltac each_character c :=
  destruct c as [[] [] [] [] [] [] [] []].

(** ** Order of chapter numbers *)

Definition number_le (a b : chapter) : Prop := number a <= number b.


(** Numbers that increase strictly along a list. *)
Definition strictly_increasing (numbers : list Z) : Prop :=
  forall i j a b, (i < j)%nat ->
    numbers !! i = Some a -> numbers !! j = Some b -> a < b.

(** ** Transcripts used as examples *)






(** The blocks of a transcript, as the scanner separates them. *)
Definition transcript_blocks (content : string) : list string :=
  Str.split (newline +:+ newline) (Str.strip content).

(** ** Times and segments *)

(** A time of 12.3 seconds: the float nearest to 123 / 10. *)
Definition seconds_12_3 : float := PyFloat.div (PyFloat.of_Z 123) (PyFloat.of_Z 10).

(** A time of 0.3 seconds: the float nearest to 3 / 10. *)
Definition seconds_0_3 : float := PyFloat.div (PyFloat.of_Z 3) (PyFloat.of_Z 10).

Definition has_milliseconds (t : float) : Prop := is_Some (milliseconds t).


(** The largest integer not above a finite float. *)
Definition floor_of_float (x : float) : option Z :=
  match x with
  | S754_zero _ => Some 0
  | S754_finite s m e =>
      let signed := if s then Zneg m else Zpos m in
      Some match e with
           | Z0 => signed
           | Zpos k => Z.shiftl signed (Zpos k)
           | Zneg k => Z.shiftr signed (Zpos k)
           end
  | S754_infinity _ | S754_nan => None
  end.

(** [floor(t * 1000)], the product being the float product. *)
Definition floor_milliseconds (t : float) : option Z :=
  floor_of_float (PyFloat.mul t (PyFloat.of_Z 1000)).

(** The start of a clip for a chapter whose start time is [m] milliseconds:
    500 ms earlier, and not before the start of the recording. *)
Definition clip_start (m : Z) : Z := Z.max 0 (m - 500).

(** The segment the cutting loop makes of a chapter whose start time is [a]
    milliseconds when the next start time is [b] milliseconds. *)
Definition planned_segment (extract_title : bool) (current_chapter : processed_chapter)
    (a b : Z) : segment :=
  {| start_ms := clip_start a;
     end_ms := b;
     output_filename :=
       if extract_title
       then number_str current_chapter +:+ "."
              +:+ sanitize_filename (pc_title current_chapter) +:+ ".mp3"
       else number_str current_chapter +:+ ".mp3" |}.


(** ** Decimal digits *)

(** The value of the decimal digits [d] read after digits of value [acc]. *)
Fixpoint digits_value (acc : Z) (d : uint) : Z :=
  match d with
  | Nil => acc
  | D0 l => digits_value (10 * acc) l
  | D1 l => digits_value (10 * acc + 1) l
  | D2 l => digits_value (10 * acc + 2) l
  | D3 l => digits_value (10 * acc + 3) l
  | D4 l => digits_value (10 * acc + 4) l
  | D5 l => digits_value (10 * acc + 5) l
  | D6 l => digits_value (10 * acc + 6) l
  | D7 l => digits_value (10 * acc + 7) l
  | D8 l => digits_value (10 * acc + 8) l
  | D9 l => digits_value (10 * acc + 9) l
  end.

(** A string of decimal digits. *)
Definition all_decimal (s : string) : bool := Str.forallb Char.is_decimal s.

(** ** File names *)

(** A character that is neither whitespace nor one of the characters
    [sanitize_filename] removes. *)
Definition filename_safe (c : ascii) : bool :=
  negb (illegal_in_filename c) && negb (Char.isspace c).

(** ** Roman digits *)


(** The values of the letters of a numeral, 0 for a letter that is no
    Roman digit. *)
Fixpoint roman_values (s : string) : list Z :=
  match s with
  | EmptyString => []
  | String c rest => default 0 (roman_map (Char.upper c)) :: roman_values rest
  end.

Definition sum_of (values : list Z) : Z := foldr Z.add 0 values.

(** ** Leading digits *)

(** The decimal digits a string starts with. *)
Fixpoint leading_digits (s : string) : string :=
  match s with
  | EmptyString => EmptyString
  | String c rest =>
      if Char.is_decimal c then String c (leading_digits rest) else EmptyString
  end.

(** ** Times that can be written *)

(** A time that is not below zero and whose number of milliseconds is
    finite. *)
Definition writable_time (x : float) : bool :=
  PyFloat.leb PyFloat.zero x && PyFloat.finite (PyFloat.mul x (PyFloat.of_Z 1000)).

Definition writable_segment (segment : transcript_segment) : bool :=
  writable_time (seg_start segment) && writable_time (seg_end segment).

(** ** Characters of a decimal numeral *)


(** One of the four characters stripped from the words of a cue. *)
Definition is_punctuation (c : ascii) : bool := Char.among ".,?!" c.

(** ** Blocks of a written transcript *)

Definition newline_char : ascii := ascii_of_N 10.

(** A string without a newline. *)
Definition one_line (s : string) : bool :=
  Str.forallb (fun c => negb (Ascii.eqb c newline_char)) s.

(** A string that is not empty, does not end with a newline and has no two
    newlines in a row. *)
Fixpoint single_newlines (s : string) : bool :=
  match s with
  | EmptyString => false
  | String c rest =>
      match rest with
      | EmptyString => negb (Ascii.eqb c newline_char)
      | String d _ =>
          (negb (Ascii.eqb c newline_char) || negb (Ascii.eqb d newline_char))
          && single_newlines rest
      end
  end.

(** The block written for segment [i] (counted from 0) when its times can
    be written: index line, time line, text. *)
Definition srt_block (i : nat) (segment : transcript_segment) : string :=
  PyInt.decimal (N.of_nat (i + 1)) +:+ newline
    +:+ (default "" (format_srt_time (seg_start segment)) +:+ " --> "
           +:+ default "" (format_srt_time (seg_end segment)))
    +:+ newline +:+ Str.strip (seg_text segment).

Fixpoint srt_blocks (i : nat) (segments : list transcript_segment) : list string :=
  match segments with
  | [] => []
  | segment :: rest => srt_block i segment :: srt_blocks (S i) rest
  end.

(** A string without a carriage return. *)
Definition no_carriage_return (s : string) : bool :=
  Str.forallb (fun c => negb (Char.code c =? 13)%N) s.

(** A segment whose times can be written and whose text, stripped, is one
    non-empty line: it has neither a line feed nor a carriage return. *)
Definition plain_segment (segment : transcript_segment) : bool :=
  writable_segment segment
  && negb (Str.is_empty (Str.strip (seg_text segment)))
  && one_line (Str.strip (seg_text segment))
  && no_carriage_return (Str.strip (seg_text segment)).

(** * Properties *)

(** ** Labels of the sequencer *)

Lemma process_chapter_gaps_lookup (chapters : list chapter) (i : nat) (c : chapter) :
  chapters !! i = Some c ->
  process_chapter_gaps chapters !! i =
    Some {| pc_start_time := if bool_decide (i = 0%nat) then PyFloat.zero else start_time c;
            pc_title := default "" (title c);
            number_str := gap_label (number c) (number <$> chapters !! (i + 1)%nat) |}.
Proof.
  intros Hc. unfold process_chapter_gaps.
  rewrite list_lookup_imap, Hc. simpl. do 2 f_equal.
  pose proof (lookup_lt_Some _ _ _ Hc) as Hlt.
  destruct (chapters !! (i + 1)%nat) as [next|] eqn:Hnext; simpl.
  - pose proof (lookup_lt_Some _ _ _ Hnext) as Hlt'.
    rewrite bool_decide_eq_false_2 by lia. reflexivity.
  - apply lookup_ge_None in Hnext.
    rewrite bool_decide_eq_true_2 by lia. reflexivity.
Qed.

Lemma process_chapter_gaps_length (chapters : list chapter) :
  length (process_chapter_gaps chapters) = length chapters.
Proof. unfold process_chapter_gaps. apply length_imap. Qed.

Lemma format_03_below_1000_nat (k : nat) :
  (k < 1000)%nat -> PyInt.format_03 (Z.of_nat k) = three_digits (Z.of_nat k).
Proof.
  intros Hk.
  assert (Hall : forallb (fun j => String.eqb (PyInt.format_03 (Z.of_nat j))
                                     (three_digits (Z.of_nat j)))
                         (seq 0 1000) = true) by (vm_compute; reflexivity).
  rewrite forallb_forall in Hall.
  apply String.eqb_eq, Hall, in_seq. lia.
Qed.

Lemma format_03_below_1000 (n : Z) :
  0 <= n < 1000 -> PyInt.format_03 n = three_digits n.
Proof.
  intros Hn. rewrite <- (Z2Nat.id n) by lia.
  apply format_03_below_1000_nat. lia.
Qed.

(** Sorting by number leaves a list that is already in ascending order as
    it is. *)
Lemma sort_by_number_of_sorted (chapters : list chapter) :
  Sorted number_le chapters -> sort_by_number chapters = chapters.
Proof.
  induction 1 as [|c l Hsorted IH Hhd]; [reflexivity|].
  cbn [sort_by_number foldr]. fold (sort_by_number l). rewrite IH.
  destruct Hhd as [|d l' Hle]; [reflexivity|].
  simpl. rewrite bool_decide_eq_true_2 by exact Hle. reflexivity.
Qed.

(** C1.  In the list the sequencer returns, the last chapter is labelled
    with its own number padded with zeros to three digits; an earlier chapter
    is labelled "own-(next-1)", both padded, when the number of the next
    chapter exceeds its own by more than one, and with its own padded number
    otherwise.  Padding to three digits writes a number from 0 to 999 with
    exactly three decimal digits.  Chapters numbered 1, 2, 5 are labelled
    "001", "002-004", "005".  (A list sorted ascending by chapter number is
    the list the scanner's sort returns for it.) *)
Theorem process_chapter_gaps_labels
    (chapters : list chapter) (i : nat) (c : chapter) :
  chapters !! i = Some c ->
  (exists p, process_chapter_gaps chapters !! i = Some p /\
     (i = (length chapters - 1)%nat -> number_str p = PyInt.format_03 (number c)) /\
     (forall next, chapters !! (i + 1)%nat = Some next ->
        number next > number c + 1 ->
        number_str p = PyInt.format_03 (number c) +:+ "-"
                         +:+ PyInt.format_03 (number next - 1)) /\
     (forall next, chapters !! (i + 1)%nat = Some next ->
        number next <= number c + 1 ->
        number_str p = PyInt.format_03 (number c))) /\
  (Sorted number_le chapters -> sort_by_number chapters = chapters) /\
  (forall n, 0 <= n < 1000 -> PyInt.format_03 n = three_digits n) /\
  (forall t1 t2 t5 ti1 ti2 ti5,
     number_str <$> process_chapter_gaps
       [Chapter 1 t1 ti1; Chapter 2 t2 ti2; Chapter 5 t5 ti5]
     = ["001"; "002-004"; "005"]).
Proof.
  intros Hc. split; [|split; [apply sort_by_number_of_sorted|split]].
  - eexists. split; [apply process_chapter_gaps_lookup, Hc|]. simpl.
    pose proof (lookup_lt_Some _ _ _ Hc) as Hlt.
    split; [|split].
    + intros Hlast.
      rewrite (proj2 (lookup_ge_None chapters (i + 1)%nat)) by lia.
      reflexivity.
    + intros next Hnext Hgap. rewrite Hnext. simpl.
      rewrite bool_decide_eq_true_2 by lia. reflexivity.
    + intros next Hnext Hgap. rewrite Hnext. simpl.
      rewrite bool_decide_eq_false_2 by lia. reflexivity.
  - apply format_03_below_1000.
  - intros. reflexivity.
Qed.

Lemma process_chapter_gaps_labels_witness :
  exists p,
    process_chapter_gaps
      [Chapter 1 PyFloat.zero None; Chapter 2 PyFloat.zero None;
       Chapter 5 PyFloat.zero None] !! 1%nat = Some p /\
    number_str p = "002-004".
Proof.
  destruct (process_chapter_gaps_labels
              [Chapter 1 PyFloat.zero None; Chapter 2 PyFloat.zero None;
               Chapter 5 PyFloat.zero None] 1 (Chapter 2 PyFloat.zero None)
              eq_refl) as [[p [Hp [_ [Hgap _]]]] _].
  exists p. split; [exact Hp|].
  apply (Hgap (Chapter 5 PyFloat.zero None) eq_refl). simpl. lia.
Defined.

(** ** Start time of the first chapter *)

(** C8.  The sequencer sets the start time of the chapter at position 0 to
    0.0, whatever time it was detected at, and leaves the start time of every
    other chapter as detected. *)
Theorem process_chapter_gaps_start_times (chapters : list chapter) :
  chapters <> [] ->
  (exists p, process_chapter_gaps chapters !! 0%nat = Some p /\
             pc_start_time p = PyFloat.zero) /\
  (forall i c, (0 < i)%nat -> chapters !! i = Some c ->
     exists p, process_chapter_gaps chapters !! i = Some p /\
               pc_start_time p = start_time c).
Proof.
  intros Hne. split.
  - destruct chapters as [|c0 rest]; [congruence|].
    eexists. split; [apply process_chapter_gaps_lookup; reflexivity|].
    reflexivity.
  - intros i c Hi Hc.
    eexists. split; [apply process_chapter_gaps_lookup, Hc|]. simpl.
    rewrite bool_decide_eq_false_2 by lia. reflexivity.
Qed.

Lemma process_chapter_gaps_start_times_witness :
  exists p,
    process_chapter_gaps
      [Chapter 3 seconds_12_3 None; Chapter 4 (PyFloat.of_Z 60) None] !! 0%nat
    = Some p /\ pc_start_time p = PyFloat.zero.
Proof.
  apply (process_chapter_gaps_start_times
           [Chapter 3 seconds_12_3 None; Chapter 4 (PyFloat.of_Z 60) None]).
  discriminate.
Defined.

(** ** The title extractor on an abbreviation *)

(** C2, as the claim states it, fails: the title extracted from
    "Mr. Smith went home. He left." is not "Mr. Smith went home. He left". *)
Lemma extract_title_not_through_second_sentence :
  extract_title_from_text "Mr. Smith went home. He left."
  <> "Mr. Smith went home. He left".
Proof. vm_compute. discriminate. Qed.

(** C2, amended.  The text "Mr. Smith went home. He left." splits into the
    three fragments "Mr.", "Smith went home." and "He left."; accumulation
    continues past "Mr.", an abbreviation, and stops after
    "Smith went home.", the first true sentence end; the title is
    "Mr. Smith went home". *)
Theorem extract_title_stops_at_first_sentence_end :
  split_sentences "Mr. Smith went home. He left."
    = ["Mr."; "Smith went home."; "He left."] /\
  continues_after "Mr." = true /\
  continues_after "Smith went home." = false /\
  title_parts ["Mr."; "Smith went home."; "He left."]
    = ["Mr."; "Smith went home."] /\
  extract_title_from_text "Mr. Smith went home. He left."
    = "Mr. Smith went home".
Proof. repeat split; vm_compute; reflexivity. Qed.

(** ** Roman numerals and the resolver *)

Lemma roman_map_digit (c : ascii) (v : Z) :
  roman_map c = Some v -> roman_digit_value v.
Proof.
  unfold roman_digit_value.
  each_character c; simpl; intros [= <-]; tauto.
Qed.

Lemma upper_lower_char (c : ascii) : Char.upper (Char.lower c) = Char.upper c.
Proof. each_character c; vm_compute; reflexivity. Qed.

Lemma upper_upper_char (c : ascii) : Char.upper (Char.upper c) = Char.upper c.
Proof. each_character c; vm_compute; reflexivity. Qed.

Lemma upper_lower (s : string) : Str.upper (Str.lower s) = Str.upper s.
Proof.
  unfold Str.upper, Str.lower.
  induction s as [|c s IH]; simpl; [reflexivity|].
  rewrite upper_lower_char, IH. reflexivity.
Qed.

Lemma upper_upper (s : string) : Str.upper (Str.upper s) = Str.upper s.
Proof.
  unfold Str.upper.
  induction s as [|c s IH]; simpl; [reflexivity|].
  rewrite upper_upper_char, IH. reflexivity.
Qed.

(** A digit larger than its predecessor is at least twice as large, so no
    step of the loop lowers the running total. *)
Lemma roman_loop_lower_bound (s : string) :
  forall p result n,
    roman_digit_value p ->
    roman_loop (Some p) result s = Some n -> result <= n.
Proof.
  induction s as [|c s IH]; simpl; intros p result n Hp Hloop.
  - injection Hloop as <-. lia.
  - destruct (roman_map c) as [v|] eqn:Hv; [|discriminate].
    pose proof (roman_map_digit _ _ Hv) as Hdigit.
    case_bool_decide as Hgt.
    + apply IH in Hloop; [|exact Hdigit].
      unfold roman_digit_value in Hp, Hdigit. lia.
    + apply IH in Hloop; [|exact Hdigit].
      unfold roman_digit_value in Hdigit. lia.
Qed.

Lemma roman_to_int_positive (s : string) (n : Z) :
  s <> "" -> roman_to_int s = Some n -> 1 <= n.
Proof.
  unfold roman_to_int. destruct s as [|c s]; [congruence|].
  intros _. simpl.
  destruct (roman_map (Char.upper c)) as [v|] eqn:Hv; [|discriminate].
  intros Hloop. pose proof (roman_map_digit _ _ Hv) as Hdigit.
  apply roman_loop_lower_bound in Hloop; [|exact Hdigit].
  unfold roman_digit_value in Hdigit. lia.
Qed.

(** C6.  The resolver gives 12 for "12", "twelve" and "XII", 9 for "nine"
    and "IX", and no number for "foo"; the Roman grammar gives the values of
    the seven digits from I = 1 to M = 1000 and of composites such as IX = 9
    and XL = 40, and does not depend on the case of the letters. *)
Theorem resolver_examples :
  resolve W2N.word_to_num "12" = Resolved 12 /\
  resolve W2N.word_to_num "twelve" = Resolved 12 /\
  resolve W2N.word_to_num "XII" = Resolved 12 /\
  resolve W2N.word_to_num "nine" = Resolved 9 /\
  resolve W2N.word_to_num "IX" = Resolved 9 /\
  resolve W2N.word_to_num "foo" = Unresolved /\
  List.map roman_to_int ["I"; "V"; "X"; "L"; "C"; "D"; "M"]
    = List.map Some [1; 5; 10; 50; 100; 500; 1000] /\
  List.map roman_to_int ["IX"; "XL"; "IV"; "XC"; "CD"; "CM"; "XIV"; "MCMXCIV"]
    = List.map Some [9; 40; 4; 90; 400; 900; 14; 1994] /\
  (forall s, roman_to_int (Str.lower s) = roman_to_int s) /\
  (forall s, roman_to_int (Str.upper s) = roman_to_int s).
Proof.
  repeat split; try (vm_compute; reflexivity).
  - intros s. unfold roman_to_int. rewrite upper_lower. reflexivity.
  - intros s. unfold roman_to_int. rewrite upper_upper. reflexivity.
Qed.

(** ** The chapter cache *)

(** C9.  Saving leaves an existing cache file as it is, whatever the
    chapters; loading a cache whose first record has a title under a policy
    without titles, or a cache whose first record has no title under a
    policy with titles, gives no chapters; in particular chapters saved with
    titles and loaded under the policy without titles are not returned. *)
Theorem cache_write_once_and_shape_checked :
  (forall chapters file, save_cache chapters (Some file) = Some file) /\
  (forall extract_title cached,
     cache_has_title cached <> Some extract_title ->
     load_cache extract_title [] (Some (CacheChapters cached)) = []) /\
  (forall first rest,
     is_Some (title first) ->
     save_cache (first :: rest) None = Some (CacheChapters (first :: rest)) /\
     load_cache false [] (save_cache (first :: rest) None) = []).
Proof.
  split; [|split].
  - intros chapters file. destruct chapters; reflexivity.
  - intros extract_title cached Hne. simpl.
    rewrite bool_decide_eq_true_2 by exact Hne. reflexivity.
  - intros first rest Htitle. split; [reflexivity|]. simpl.
    rewrite (bool_decide_eq_true_2 _ Htitle).
    rewrite bool_decide_eq_true_2 by congruence. reflexivity.
Qed.

Lemma cache_write_once_and_shape_checked_witness :
  load_cache false []
    (save_cache [Chapter 1 PyFloat.zero (Some "The Beginning")] None) = [].
Proof.
  destruct cache_write_once_and_shape_checked as [_ [_ Hround]].
  apply (Hround (Chapter 1 PyFloat.zero (Some "The Beginning")) []).
  simpl. eexists. reflexivity.
Defined.

(** ** Order of the chapters after the scan *)










(** ** Scanning the words of a cue *)

Section ScanWords.

Variable word_to_num : string -> w2n_outcome.






(** The first "chapter" word whose following word does not fail decides
    the scan. *)
Lemma scan_words_first (words : list string) :
  forall i next_word,
    announced_at words i next_word ->
    (forall j nx, (j < i)%nat -> announced_at words j nx ->
       resolve word_to_num nx = Unresolved) ->
    scan_words word_to_num words
    = match resolve word_to_num next_word with
      | Unresolved => scan_words word_to_num (drop (S i) words)
      | r => scan_outcome r (drop (S (S i)) words)
      end.
Proof.
  induction words as [|w rest IH]; intros i next_word (word & Hw & Hc & Hn) Hearlier;
    [discriminate Hw|].
  destruct i as [|i].
  - injection Hw as ->. destruct rest as [|nx after]; [discriminate Hn|].
    injection Hn as ->. cbn [scan_words]. rewrite Hc.
    destruct (resolve word_to_num next_word); reflexivity.
  - assert (Hstep : scan_words word_to_num (w :: rest) = scan_words word_to_num rest).
    { cbn [scan_words]. destruct (is_chapter_word w) eqn:Hchapter; [|reflexivity].
      destruct rest as [|nx after]; [reflexivity|].
      rewrite (Hearlier 0%nat nx ltac:(lia)); [reflexivity|].
      exists w. split; [reflexivity|split; [exact Hchapter|reflexivity]]. }
    rewrite Hstep. change (drop (S (S (S i))) (w :: rest)) with (drop (S (S i)) rest).
    change (drop (S (S i)) (w :: rest)) with (drop (S i) rest).
    apply IH.
    + exists word. repeat split; assumption.
    + intros j nx Hj (wj & Hwj & Hcj & Hnj). apply (Hearlier (S j) nx ltac:(lia)).
      exists wj. repeat split; assumption.
Qed.



End ScanWords.




(** ** Chapter numbers of the candidates *)

Section CandidateNumbers.

Variable word_to_num : string -> w2n_outcome.






End CandidateNumbers.




(** ** The cut plan *)

Lemma milliseconds_of_zero (t : float) :
  PyFloat.eqb t PyFloat.zero = true -> milliseconds t = Some 0.
Proof.
  destruct t as [s|s| |s m e]; try destruct s; try discriminate;
    intros _; vm_compute; reflexivity.
Qed.

Lemma cut_segment_planned (extract_title : bool)
    (current_chapter next_chapter : processed_chapter) (a b : Z) :
  milliseconds (pc_start_time current_chapter) = Some a ->
  milliseconds (pc_start_time next_chapter) = Some b ->
  cut_segment extract_title current_chapter next_chapter
  = Some (planned_segment extract_title current_chapter a b).
Proof.
  intros Ha Hb. unfold cut_segment, planned_segment.
  rewrite Hb.
  destruct (PyFloat.eqb (pc_start_time current_chapter) PyFloat.zero) eqn:Hzero.
  - apply milliseconds_of_zero in Hzero. rewrite Hzero in Ha.
    injection Ha as <-. reflexivity.
  - rewrite Ha. reflexivity.
Qed.

Lemma cut_segment_some (extract_title : bool)
    (current_chapter next_chapter : processed_chapter) (seg : segment) :
  cut_segment extract_title current_chapter next_chapter = Some seg ->
  exists a b,
    milliseconds (pc_start_time current_chapter) = Some a /\
    milliseconds (pc_start_time next_chapter) = Some b /\
    seg = planned_segment extract_title current_chapter a b.
Proof.
  intros Hcut.
  assert (Hcur : has_milliseconds (pc_start_time current_chapter)).
  { unfold cut_segment in Hcut. unfold has_milliseconds.
    destruct (PyFloat.eqb (pc_start_time current_chapter) PyFloat.zero) eqn:Hzero.
    - exists 0. apply milliseconds_of_zero, Hzero.
    - destruct (milliseconds (pc_start_time current_chapter)) as [a|];
        [eexists; reflexivity|discriminate]. }
  assert (Hnext : has_milliseconds (pc_start_time next_chapter)).
  { unfold cut_segment in Hcut. unfold has_milliseconds.
    destruct (milliseconds (pc_start_time next_chapter)) as [b|];
      [eexists; reflexivity|].
    destruct (if PyFloat.eqb (pc_start_time current_chapter) PyFloat.zero
              then Some 0
              else (fun v => Z.max 0 (v - 500))
                     <$> milliseconds (pc_start_time current_chapter));
      discriminate. }
  destruct Hcur as [a Ha]. destruct Hnext as [b Hb].
  exists a, b. split; [exact Ha|]. split; [exact Hb|].
  rewrite (cut_segment_planned _ _ _ _ _ Ha Hb) in Hcut. congruence.
Qed.

(** Every segment the loop exports, whether or not the loop runs to its end,
    is the planned segment of its chapter. *)
Lemma cut_loop_segments (extract_title : bool) (chapters_to_cut : list processed_chapter) :
  forall segments completed i seg,
    cut_loop extract_title chapters_to_cut = (segments, completed) ->
    segments !! i = Some seg ->
    exists current_chapter next_chapter a b,
      chapters_to_cut !! i = Some current_chapter /\
      chapters_to_cut !! S i = Some next_chapter /\
      milliseconds (pc_start_time current_chapter) = Some a /\
      milliseconds (pc_start_time next_chapter) = Some b /\
      seg = planned_segment extract_title current_chapter a b.
Proof.
  induction chapters_to_cut as [|cur rest IH]; intros segments completed i seg.
  - intros [= <- _] Hseg. discriminate Hseg.
  - cbn [cut_loop]. destruct rest as [|nxt rest'].
    + intros [= <- _] Hseg. discriminate Hseg.
    + destruct (cut_segment extract_title cur nxt) as [first|] eqn:Hcut;
        [|intros [= <- _] Hseg; discriminate Hseg].
      destruct (cut_loop extract_title (nxt :: rest')) as [later done] eqn:Hloop.
      intros [= <- _] Hseg. destruct i as [|i].
      * injection Hseg as ->.
        destruct (cut_segment_some _ _ _ _ Hcut) as [a [b [Ha [Hb ->]]]].
        exists cur, nxt, a, b. repeat split; assumption.
      * apply (IH later done i seg eq_refl Hseg).
Qed.

(** The loop runs to its end when every start time has a millisecond
    value. *)
Lemma cut_loop_complete (extract_title : bool) (chapters_to_cut : list processed_chapter) :
  Forall (fun p => has_milliseconds (pc_start_time p)) chapters_to_cut ->
  exists segments,
    cut_loop extract_title chapters_to_cut = (segments, true) /\
    length segments = Nat.pred (length chapters_to_cut).
Proof.
  induction 1 as [|cur rest [a Ha] Hrest IH].
  - exists []. split; reflexivity.
  - destruct IH as [segments [Hloop Hlen]].
    destruct rest as [|nxt rest'].
    + exists []. split; reflexivity.
    + inversion Hrest as [|? ? [b Hb] _]; subst.
      exists (planned_segment extract_title cur a b :: segments).
      cbn [cut_loop]. rewrite (cut_segment_planned _ _ _ _ _ Ha Hb).
      cbn [cut_loop] in Hloop. rewrite Hloop.
      split; [reflexivity|]. simpl in *. lia.
Qed.

Lemma chapters_to_cut_lookup (chapters : list chapter) (total : float) (i : nat) :
  (process_chapter_gaps chapters ++ [end_marker total])%list !! i
  = match chapters !! i with
    | Some c =>
        Some {| pc_start_time := if bool_decide (i = 0%nat) then PyFloat.zero
                                 else start_time c;
                pc_title := default "" (title c);
                number_str := gap_label (number c) (number <$> chapters !! (i + 1)%nat) |}
    | None => if bool_decide (i = length chapters) then Some (end_marker total) else None
    end.
Proof.
  destruct (chapters !! i) as [c|] eqn:Hc.
  - rewrite lookup_app_l
      by (rewrite process_chapter_gaps_length; eapply lookup_lt_Some, Hc).
    apply process_chapter_gaps_lookup, Hc.
  - apply lookup_ge_None in Hc.
    rewrite lookup_app_r by (rewrite process_chapter_gaps_length; exact Hc).
    rewrite process_chapter_gaps_length.
    case_bool_decide as Hi.
    + subst i. rewrite Nat.sub_diag. reflexivity.
    + apply lookup_ge_None. simpl. lia.
Qed.

Lemma chapters_to_cut_milliseconds (chapters : list chapter) (total : float) :
  Forall (fun c => has_milliseconds (start_time c)) (drop 1 chapters) ->
  has_milliseconds total ->
  Forall (fun p => has_milliseconds (pc_start_time p))
         (process_chapter_gaps chapters ++ [end_marker total])%list.
Proof.
  intros Hchapters Htotal. apply Forall_lookup. intros i p.
  rewrite chapters_to_cut_lookup.
  destruct (chapters !! i) as [c|] eqn:Hc.
  - intros [= <-]. simpl. case_bool_decide as Hi.
    + exists 0. vm_compute. reflexivity.
    + rewrite Forall_lookup in Hchapters.
      apply (Hchapters (i - 1)%nat c).
      rewrite lookup_drop. replace (1 + (i - 1))%nat with i by lia. exact Hc.
  - case_bool_decide; [|discriminate]. intros [= <-]. exact Htotal.
Qed.

(** The segment at position [i] of a plan, complete or not: it belongs to
    the chapter at position [i], starts at 0 for the first chapter and at the
    clip start of the chapter's start time otherwise, and ends at the
    millisecond value of the next start time, or of the total duration. *)
Lemma cut_plan_segment_at (extract_title : bool) (chapters : list chapter)
    (total_duration_sec : float) (segments : list segment) (completed : bool)
    (i : nat) (seg : segment) :
  cut_plan extract_title chapters total_duration_sec = (segments, completed) ->
  segments !! i = Some seg ->
  exists c, chapters !! i = Some c /\
    (i = 0%nat -> start_ms seg = 0) /\
    ((0 < i)%nat ->
       clip_start <$> milliseconds (start_time c) = Some (start_ms seg)) /\
    match chapters !! S i with
    | Some d => milliseconds (start_time d) = Some (end_ms seg)
    | None => milliseconds total_duration_sec = Some (end_ms seg)
    end.
Proof.
  unfold cut_plan. intros Hplan Hseg.
  destruct (cut_loop_segments _ _ _ _ _ _ Hplan Hseg)
    as [cur [nxt [a [b [Hcur [Hnxt [Ha [Hb ->]]]]]]]].
  rewrite chapters_to_cut_lookup in Hcur, Hnxt.
  destruct (chapters !! i) as [c|] eqn:Hc.
  - injection Hcur as <-. cbn [pc_start_time] in Ha.
    exists c. split; [reflexivity|]. cbn [planned_segment start_ms end_ms].
    split; [|split].
    + intros ->. vm_compute in Ha. injection Ha as <-. reflexivity.
    + intros Hpos. rewrite bool_decide_eq_false_2 in Ha by lia.
      rewrite Ha. reflexivity.
    + destruct (chapters !! S i) as [d|] eqn:Hd.
      * injection Hnxt as Hn. subst nxt. cbn [pc_start_time] in Hb. exact Hb.
      * destruct (bool_decide (S i = length chapters)); [|discriminate Hnxt].
        injection Hnxt as Hn. subst nxt. exact Hb.
  - destruct (bool_decide (i = length chapters)) eqn:Hi; [|discriminate Hcur].
    apply bool_decide_eq_true_1 in Hi. apply lookup_ge_None in Hc.
    rewrite (proj2 (lookup_ge_None chapters (S i))) in Hnxt by lia.
    rewrite bool_decide_eq_false_2 in Hnxt by lia. discriminate Hnxt.
Qed.

Lemma cut_plan_complete (extract_title : bool) (chapters : list chapter)
    (total_duration_sec : float) :
  Forall (fun c => has_milliseconds (start_time c)) (drop 1 chapters) ->
  has_milliseconds total_duration_sec ->
  exists segments,
    cut_plan extract_title chapters total_duration_sec = (segments, true) /\
    length segments = length chapters.
Proof.
  intros Hchapters Htotal.
  destruct (cut_loop_complete extract_title _
              (chapters_to_cut_milliseconds chapters total_duration_sec
                 Hchapters Htotal)) as [segments [Hloop Hlen]].
  rewrite length_app, process_chapter_gaps_length in Hlen. simpl in Hlen.
  exists segments. split; [exact Hloop|lia].
Qed.




(** ** The pre-roll *)

(** Truncation and floor differ on negative floats only, where the clip
    start is 0 for both. *)
Lemma clip_start_of_floor (x : float) (a : Z) :
  PyFloat.to_int x = Some a ->
  exists f, floor_of_float x = Some f /\ clip_start f = clip_start a.
Proof.
  destruct x as [s|s| |s m e]; simpl; try discriminate.
  - intros [= <-]. exists 0. split; reflexivity.
  - intros [= <-]. eexists. split; [reflexivity|].
    destruct s; [|destruct e; reflexivity].
    unfold clip_start. destruct e as [|k|k].
    + reflexivity.
    + rewrite !Z.shiftl_mul_pow2 by lia.
      pose proof (Z.pow_pos_nonneg 2 (Z.pos k) ltac:(lia) ltac:(lia)). nia.
    + pose proof (Z.shiftr_nonneg (Z.pos m) (Z.pos k)) as Hnonneg.
      rewrite (Z.shiftr_div_pow2 (Z.neg m)) by lia.
      pose proof (Z.pow_pos_nonneg 2 (Z.pos k) ltac:(lia) ltac:(lia)) as Hpow.
      pose proof (Z.div_lt_upper_bound (Z.neg m) (2 ^ Z.pos k) 0 Hpow ltac:(lia)).
      lia.
Qed.

(** C7.  In a cut plan, the segment of every chapter but the first starts
    at max(0, floor(start_seconds * 1000) - 500) milliseconds and the segment
    of the first chapter starts at 0, for every segment the cutting loop
    produces; the loop produces a segment for every chapter when the start
    times after the first and the total duration are finite.  A chapter that
    is not the first and was detected at 100.0 seconds gets a segment that
    starts at 99500 ms, one detected at 0.3 seconds a segment that starts at
    0 ms. *)
Theorem clip_start_pre_roll (extract_title : bool) (chapters : list chapter)
    (total_duration_sec : float) :
  (forall segments completed i seg,
     cut_plan extract_title chapters total_duration_sec = (segments, completed) ->
     segments !! i = Some seg ->
     (i = 0%nat -> start_ms seg = 0) /\
     ((0 < i)%nat ->
        exists c m,
          chapters !! i = Some c /\
          floor_milliseconds (start_time c) = Some m /\
          start_ms seg = Z.max 0 (m - 500))) /\
  (Forall (fun c => has_milliseconds (start_time c)) (drop 1 chapters) ->
   has_milliseconds total_duration_sec ->
   exists segments,
     cut_plan extract_title chapters total_duration_sec = (segments, true) /\
     length segments = length chapters) /\
  srt_time_to_seconds "00:01:40,000" = Some (PyFloat.of_Z 100) /\
  srt_time_to_seconds "00:00:00,300" = Some seconds_0_3 /\
  seconds_0_3 = S754_finite false 5404319552844595 (-54) /\
  cut_plan false
    [Chapter 1 seconds_12_3 None; Chapter 2 (PyFloat.of_Z 100) None]
    (PyFloat.of_Z 200)
  = ([Segment 0 100000 "001.mp3"; Segment 99500 200000 "002.mp3"], true) /\
  cut_plan false
    [Chapter 1 seconds_12_3 None; Chapter 2 seconds_0_3 None]
    (PyFloat.of_Z 200)
  = ([Segment 0 300 "001.mp3"; Segment 0 200000 "002.mp3"], true).
Proof.
  split; [|split; [apply cut_plan_complete|repeat split; vm_compute; reflexivity]].
  intros segments completed i seg Hplan Hseg.
  destruct (cut_plan_segment_at _ _ _ _ _ _ _ Hplan Hseg)
    as [c [Hc [Hfirst [Hstart _]]]].
  split; [exact Hfirst|].
  intros Hpos. specialize (Hstart Hpos).
  destruct (milliseconds (start_time c)) as [a|] eqn:Ha; [|discriminate].
  injection Hstart as Hstart.
  destruct (clip_start_of_floor _ _ Ha) as [f [Hf Hclip]].
  exists c, f. split; [exact Hc|]. split; [exact Hf|].
  rewrite <- Hstart, <- Hclip. reflexivity.
Qed.

Lemma clip_start_pre_roll_witness :
  (exists c m,
     [Chapter 1 seconds_12_3 None; Chapter 2 (PyFloat.of_Z 100) None] !! 1%nat
       = Some c /\
     floor_milliseconds (start_time c) = Some m /\
     99500 = Z.max 0 (m - 500)) /\
  exists segments,
    cut_plan false
      [Chapter 1 seconds_12_3 None; Chapter 2 (PyFloat.of_Z 100) None]
      (PyFloat.of_Z 200) = (segments, true) /\
    length segments = 2%nat.
Proof.
  destruct (clip_start_pre_roll false
              [Chapter 1 seconds_12_3 None; Chapter 2 (PyFloat.of_Z 100) None]
              (PyFloat.of_Z 200))
    as [Hsegments [Hcomplete _]].
  split.
  - apply (Hsegments [Segment 0 100000 "001.mp3"; Segment 99500 200000 "002.mp3"]
             true 1%nat (Segment 99500 200000 "002.mp3")).
    + vm_compute. reflexivity.
    + reflexivity.
    + lia.
  - apply Hcomplete.
    + repeat constructor. exists 100000. vm_compute. reflexivity.
    + exists 200000. vm_compute. reflexivity.
Defined.

(** * Further properties *)

(** ** Decimal numerals read back *)

Lemma digits_of_uint (d : uint) :
  forall acc, PyInt.digits true acc (NilEmpty.string_of_uint d)
              = Some (digits_value acc d).
Proof.
  induction d; intros acc; cbn [NilEmpty.string_of_uint digits_value];
    [reflexivity|..]; cbn [PyInt.digits];
    match goal with
    | |- context [Char.is_decimal ?c] =>
        change (Char.is_decimal c) with true;
        let v := eval vm_compute in (Char.decimal_value c) in
        change (Char.decimal_value c) with v
    end; cbv iota; rewrite ?Z.add_0_r; apply IHd.
Qed.

Lemma digits_value_pos (d : uint) :
  forall a, digits_value (Z.pos a) d = Z.pos (Pos.of_uint_acc d a).
Proof.
  induction d; intros a; cbn [digits_value Pos.of_uint_acc]; [reflexivity|..];
    rewrite <- IHd; f_equal; lia.
Qed.

Lemma digits_value_zero (d : uint) : digits_value 0 d = Z.of_N (Pos.of_uint d).
Proof.
  induction d; cbn [digits_value Pos.of_uint]; [reflexivity|exact IHd|..];
    apply (digits_value_pos d).
Qed.

Lemma digits_true_false (acc : Z) (c : ascii) (s : string) :
  Char.is_decimal c = true ->
  PyInt.digits false acc (String c s) = PyInt.digits true acc (String c s).
Proof. intros Hc. cbn [PyInt.digits]. rewrite Hc. reflexivity. Qed.

Lemma decimal_all_decimal (n : N) :
  all_decimal (PyInt.decimal n) = true /\ PyInt.decimal n <> "".
Proof.
  unfold PyInt.decimal, NilZero.string_of_uint.
  assert (Hall : forall d, all_decimal (NilEmpty.string_of_uint d) = true)
    by (induction d; simpl; auto).
  destruct (N.to_uint n) eqn:Hd; try (split; [reflexivity|discriminate]);
    (split; [apply Hall|discriminate]).
Qed.

Lemma digits_decimal (b : bool) (n : N) :
  PyInt.digits b 0 (PyInt.decimal n) = Some (Z.of_N n).
Proof.
  assert (Htrue : PyInt.digits true 0 (PyInt.decimal n) = Some (Z.of_N n)).
  { unfold PyInt.decimal, NilZero.string_of_uint.
    pose proof (DecimalN.Unsigned.of_to n) as Hn. unfold N.of_uint in Hn.
    destruct (N.to_uint n) eqn:Hd;
      try (rewrite digits_of_uint, digits_value_zero, Hn; reflexivity).
    simpl in Hn. subst n. reflexivity. }
  destruct b; [exact Htrue|].
  destruct (decimal_all_decimal n) as [Hall Hne].
  destruct (PyInt.decimal n) as [|c s]; [congruence|].
  rewrite digits_true_false; [exact Htrue|].
  simpl in Hall. apply andb_true_iff in Hall. apply Hall.
Qed.

Lemma digits_zfill (b : bool) (width : nat) (n : N) :
  PyInt.digits b 0 (PyInt.zfill width (PyInt.decimal n)) = Some (Z.of_N n).
Proof.
  unfold PyInt.zfill. revert b.
  induction (width - String.length (PyInt.decimal n))%nat as [|k IH]; intros b.
  - apply digits_decimal.
  - cbn [Str.replicate String.append PyInt.digits].
    change (Char.is_decimal "0") with true. cbv iota. apply IH.
Qed.

Lemma all_decimal_append (s t : string) :
  all_decimal (s +:+ t) = all_decimal s && all_decimal t.
Proof.
  unfold all_decimal. induction s as [|c s IH]; simpl; [reflexivity|].
  rewrite IH. apply andb_assoc.
Qed.

Lemma zfill_all_decimal (width : nat) (n : N) :
  all_decimal (PyInt.zfill width (PyInt.decimal n)) = true /\
  PyInt.zfill width (PyInt.decimal n) <> "".
Proof.
  destruct (decimal_all_decimal n) as [Hall Hne]. unfold PyInt.zfill. split.
  - rewrite all_decimal_append, Hall, andb_true_r.
    induction (width - String.length (PyInt.decimal n))%nat; simpl; auto.
  - destruct (Str.replicate _ _); [exact Hne|discriminate].
Qed.

(** Stripping removes nothing from a string none of whose characters is
    to be stripped. *)
Lemma strip_by_none (p : ascii -> bool) (s : string) :
  Str.forallb (fun c => negb (p c)) s = true -> Str.strip_by p s = s.
Proof.
  unfold Str.strip_by. intros Hs.
  assert (Hl : Str.lstrip_by p s = s).
  { destruct s as [|c s]; [reflexivity|]. simpl in *.
    apply andb_true_iff in Hs. destruct Hs as [Hc _].
    apply negb_true_iff in Hc. rewrite Hc. reflexivity. }
  rewrite Hl. clear Hl.
  induction s as [|c s IH]; [reflexivity|]. simpl in *.
  apply andb_true_iff in Hs. destruct Hs as [Hc Hs].
  apply negb_true_iff in Hc. rewrite (IH Hs), Hc, andb_false_r. reflexivity.
Qed.

Lemma decimal_not_space (s : string) :
  all_decimal s = true -> Str.forallb (fun c => negb (Char.isspace c)) s = true.
Proof.
  unfold all_decimal. induction s as [|c s IH]; simpl; [reflexivity|].
  intros [Hc Hs]%andb_true_iff. rewrite (IH Hs), andb_true_r.
  revert Hc. clear. each_character c; vm_compute; congruence.
Qed.

Lemma decimal_not_int_space (s : string) :
  all_decimal s = true ->
  Str.forallb (fun c => negb (PyInt.int_space c)) s = true.
Proof.
  unfold all_decimal. induction s as [|c s IH]; simpl; [reflexivity|].
  intros [Hc Hs]%andb_true_iff. rewrite (IH Hs), andb_true_r.
  revert Hc. clear. each_character c; vm_compute; congruence.
Qed.

Lemma count_digits_all_decimal (s : string) :
  all_decimal s = true -> PyInt.count_digits s = String.length s.
Proof.
  unfold all_decimal, PyInt.count_digits.
  induction s as [|c s IH]; [reflexivity|]. cbn [Str.forallb Str.filter].
  intros [Hc Hs]%andb_true_iff. rewrite Hc. cbn [String.length].
  rewrite (IH Hs). reflexivity.
Qed.

(** ** The length of a decimal numeral *)

Lemma length_string_of_uint (d : uint) :
  String.length (NilEmpty.string_of_uint d) = nb_digits d.
Proof. induction d; cbn [NilEmpty.string_of_uint String.length nb_digits]; congruence. Qed.

Lemma digits_value_bounds (d : uint) :
  forall acc, 0 <= acc ->
    acc * 10 ^ Z.of_nat (nb_digits d) <= digits_value acc d
    /\ digits_value acc d < (acc + 1) * 10 ^ Z.of_nat (nb_digits d).
Proof.
  induction d; intros acc Hacc; cbn [digits_value nb_digits];
    [rewrite Z.pow_0_r; lia|..];
    rewrite Nat2Z.inj_succ, Z.pow_succ_r by lia;
    match goal with
    | |- context [digits_value ?a d] =>
        pose proof (IHd a ltac:(lia)) as [Hlow Hhigh]
    end;
    pose proof (Z.pow_pos_nonneg 10 (Z.of_nat (nb_digits d)) ltac:(lia) ltac:(lia));
    nia.
Qed.

Lemma nzhead_fixed (d : uint) :
  nzhead d = d -> match d with D0 _ => False | _ => True end.
Proof.
  destruct d; try exact (fun _ => I). cbn [nzhead]. intros H.
  pose proof (DecimalFacts.nb_digits_nzhead d) as Hle.
  rewrite H in Hle. cbn [nb_digits] in Hle. lia.
Qed.

Lemma to_uint_normal (n : N) :
  N.to_uint n = D0 Nil \/
  (nzhead (N.to_uint n) = N.to_uint n /\ N.to_uint n <> Nil).
Proof.
  pose proof (DecimalN.Unsigned.to_of (N.to_uint n)) as H.
  rewrite DecimalN.Unsigned.of_to in H. unfold unorm in H.
  destruct (nzhead (N.to_uint n)) eqn:Hnz; [left; exact H|..];
    right; (split; [congruence|rewrite H; discriminate]).
Qed.

Lemma decimal_length_bounds (n : N) :
  Z.of_N n < 10 ^ Z.of_nat (String.length (PyInt.decimal n)) /\
  (n <> 0%N -> 10 ^ (Z.of_nat (String.length (PyInt.decimal n)) - 1) <= Z.of_N n).
Proof.
  unfold PyInt.decimal, NilZero.string_of_uint.
  pose proof (DecimalN.Unsigned.of_to n) as Hn. unfold N.of_uint in Hn.
  pose proof (digits_value_zero (N.to_uint n)) as Hvalue. rewrite Hn in Hvalue.
  destruct (to_uint_normal n) as [Hzero|[Hnz Hnil]].
  - rewrite Hzero in *. cbn in Hvalue. cbn [NilEmpty.string_of_uint String.length].
    split; [lia|]. intros Hne. lia.
  - pose proof (nzhead_fixed _ Hnz) as Hhead.
    destruct (N.to_uint n) as [|d|d|d|d|d|d|d|d|d|d] eqn:Hd;
      [congruence|contradiction|..];
      rewrite length_string_of_uint; cbn [nb_digits];
      cbn [digits_value] in Hvalue;
      match type of Hvalue with
      | digits_value ?a d = _ =>
          pose proof (digits_value_bounds d a ltac:(lia)) as [Hlow Hhigh]
      end;
      rewrite Nat2Z.inj_succ, Z.pow_succ_r by lia;
      replace (Z.succ (Z.of_nat (nb_digits d)) - 1) with (Z.of_nat (nb_digits d)) by lia;
      pose proof (Z.pow_pos_nonneg 10 (Z.of_nat (nb_digits d)) ltac:(lia) ltac:(lia));
      (split; [|intros _]; nia).
Qed.

Lemma decimal_length_le (n : N) (k : nat) :
  (0 < k)%nat -> Z.of_N n < 10 ^ Z.of_nat k ->
  (String.length (PyInt.decimal n) <= k)%nat.
Proof.
  intros Hk Hn. destruct (N.eq_dec n 0%N) as [->|Hne]; [cbn; lia|].
  destruct (decimal_length_bounds n) as [_ Hlow]. specialize (Hlow Hne).
  destruct (le_gt_dec (String.length (PyInt.decimal n)) k) as [Hle|Hgt]; [exact Hle|].
  exfalso.
  assert (10 ^ Z.of_nat k <= 10 ^ (Z.of_nat (String.length (PyInt.decimal n)) - 1))
    by (apply Z.pow_le_mono_r; lia).
  lia.
Qed.


Lemma length_append (s t : string) :
  String.length (s +:+ t) = (String.length s + String.length t)%nat.
Proof.
  induction s as [|c s IH]; [reflexivity|].
  change (String c s +:+ t) with (String c (s +:+ t)).
  cbn [String.length]. rewrite IH. reflexivity.
Qed.

Lemma length_replicate (k : nat) (c : ascii) : String.length (Str.replicate k c) = k.
Proof. induction k as [|k IH]; [reflexivity|]. cbn [Str.replicate String.length]. congruence. Qed.

Lemma length_zfill (width : nat) (s : string) :
  String.length (PyInt.zfill width s) = Nat.max width (String.length s).
Proof. unfold PyInt.zfill. rewrite length_append, length_replicate. lia. Qed.

(** The number of digits of a numeral written with zero padding. *)
Lemma count_digits_format_zero (width : nat) (n : Z) :
  PyInt.count_digits (PyInt.format_zero width n)
  = Nat.max (if n <? 0 then (width - 1)%nat else width)
            (String.length (PyInt.decimal (Z.abs_N n))).
Proof.
  unfold PyInt.format_zero. destruct (n <? 0).
  - change ("-" +:+ ?x) with (String "-" x).
    change (PyInt.count_digits (String "-" ?x)) with (PyInt.count_digits x).
    rewrite count_digits_all_decimal by apply zfill_all_decimal.
    apply length_zfill.
  - rewrite count_digits_all_decimal by apply zfill_all_decimal.
    apply length_zfill.
Qed.

(** ** Reading a decimal numeral *)

Lemma of_string_decimal_string (s : string) :
  all_decimal s = true ->
  PyInt.of_string s
  = if (String.length s <=? PyInt.max_str_digits)%nat
    then PyInt.digits false 0 s else None.
Proof.
  intros Hs. unfold PyInt.of_string. cbv zeta.
  rewrite (strip_by_none _ _ (decimal_not_int_space _ Hs)).
  rewrite (count_digits_all_decimal _ Hs).
  destruct (String.length s <=? PyInt.max_str_digits)%nat; [|reflexivity].
  destruct s as [|c s]; [reflexivity|].
  simpl in Hs. apply andb_true_iff in Hs. destruct Hs as [Hc _].
  revert Hc. clear. each_character c; vm_compute; congruence.
Qed.

Lemma of_string_minus (s : string) :
  all_decimal s = true ->
  PyInt.of_string ("-" +:+ s)
  = if (String.length s <=? PyInt.max_str_digits)%nat
    then Z.opp <$> PyInt.digits false 0 s else None.
Proof.
  intros Hs. unfold PyInt.of_string. cbv zeta.
  change ("-" +:+ s) with (String "-" s).
  rewrite strip_by_none.
  2:{ cbn [Str.forallb]. rewrite (decimal_not_int_space _ Hs). reflexivity. }
  change (PyInt.count_digits (String "-" s)) with (PyInt.count_digits s).
  rewrite (count_digits_all_decimal _ Hs). reflexivity.
Qed.

(** [int] reads a zero-padded numeral back when it has at most
    [max_str_digits] digits and refuses it when it has more. *)
Lemma of_string_format_zero_cases (width : nat) (n : Z) :
  PyInt.of_string (PyInt.format_zero width n)
  = if (PyInt.count_digits (PyInt.format_zero width n) <=? PyInt.max_str_digits)%nat
    then Some n else None.
Proof.
  rewrite count_digits_format_zero.
  unfold PyInt.format_zero. destruct (n <? 0) eqn:Hneg.
  - rewrite of_string_minus by apply zfill_all_decimal.
    rewrite length_zfill, digits_zfill.
    destruct (_ <=? _)%nat; [|reflexivity].
    simpl. f_equal. rewrite N2Z.inj_abs_N. lia.
  - rewrite of_string_decimal_string by apply zfill_all_decimal.
    rewrite length_zfill, digits_zfill.
    destruct (_ <=? _)%nat; [|reflexivity].
    f_equal. rewrite N2Z.inj_abs_N. lia.
Qed.

(** Zero-padded numerals of different integers differ. *)
Lemma format_zero_injective (width : nat) (n n' : Z) :
  PyInt.format_zero width n = PyInt.format_zero width n' -> n = n'.
Proof.
  unfold PyInt.format_zero.
  destruct (n <? 0) eqn:Hn, (n' <? 0) eqn:Hn';
    try apply Z.ltb_lt in Hn; try apply Z.ltb_lt in Hn';
    try apply Z.ltb_ge in Hn; try apply Z.ltb_ge in Hn'.
  - change ("-" +:+ ?x) with (String "-" x). intros [= H].
    pose proof (digits_zfill true (width - 1) (Z.abs_N n)) as H1.
    pose proof (digits_zfill true (width - 1) (Z.abs_N n')) as H2.
    rewrite H, H2 in H1. injection H1 as H1. lia.
  - intros H.
    destruct (zfill_all_decimal width (Z.abs_N n')) as [Hall _].
    rewrite <- H in Hall. discriminate Hall.
  - intros H.
    destruct (zfill_all_decimal width (Z.abs_N n)) as [Hall _].
    rewrite H in Hall. discriminate Hall.
  - intros H.
    pose proof (digits_zfill true width (Z.abs_N n)) as H1.
    pose proof (digits_zfill true width (Z.abs_N n')) as H2.
    rewrite H, H2 in H1. injection H1 as H1. lia.
Qed.

Lemma of_string_format_zero (width : nat) (n : Z) :
  (PyInt.count_digits (PyInt.format_zero width n) <= PyInt.max_str_digits)%nat ->
  PyInt.of_string (PyInt.format_zero width n) = Some n.
Proof.
  intros Hle. rewrite of_string_format_zero_cases.
  rewrite (proj2 (Nat.leb_le _ _) Hle). reflexivity.
Qed.

(** ** Splitting on a character *)

Lemma append_cons (c : ascii) (s t : string) :
  String c s +:+ t = String c (s +:+ t).
Proof. reflexivity. Qed.

Lemma append_nil (t : string) : "" +:+ t = t.
Proof. reflexivity. Qed.

Lemma snoc_append (cur : string) (a : ascii) (rest : string) :
  Str.snoc cur a +:+ rest = cur +:+ String a rest.
Proof.
  unfold Str.snoc. induction cur as [|c cur IH]; [reflexivity|].
  rewrite !append_cons. f_equal. exact IH.
Qed.

Lemma append_empty_r (s : string) : s +:+ "" = s.
Proof.
  induction s as [|c s IH]; [reflexivity|].
  rewrite append_cons. f_equal. exact IH.
Qed.

Lemma prefix_char (c a : ascii) (rest : string) :
  String.prefix (String c "") (String a rest) = Ascii.eqb a c.
Proof.
  simpl. destruct (ascii_dec c a) as [->|Hne].
  - rewrite Ascii.eqb_refl. destruct rest; reflexivity.
  - symmetry. apply Ascii.eqb_neq. congruence.
Qed.

Lemma split_char_none (c : ascii) (s : string) :
  forall cur,
    Str.forallb (fun a => negb (Ascii.eqb a c)) s = true ->
    Str.split_from (String c "") 0 cur s = [cur +:+ s].
Proof.
  induction s as [|a s IH]; intros cur Hs.
  - cbn [Str.split_from]. rewrite append_empty_r. reflexivity.
  - cbn [Str.forallb] in Hs. apply andb_true_iff in Hs. destruct Hs as [Ha Hs].
    apply negb_true_iff in Ha.
    cbn [Str.split_from]. rewrite prefix_char, Ha, (IH _ Hs), snoc_append.
    reflexivity.
Qed.

Lemma split_char_first (c : ascii) (s rest : string) :
  forall cur,
    Str.forallb (fun a => negb (Ascii.eqb a c)) s = true ->
    Str.split_from (String c "") 0 cur (s +:+ String c rest)
    = (cur +:+ s) :: Str.split_from (String c "") 0 "" rest.
Proof.
  induction s as [|a s IH]; intros cur Hs.
  - rewrite append_nil. cbn [Str.split_from].
    rewrite prefix_char, Ascii.eqb_refl, append_empty_r. reflexivity.
  - cbn [Str.forallb] in Hs. apply andb_true_iff in Hs. destruct Hs as [Ha Hs].
    apply negb_true_iff in Ha.
    rewrite append_cons. cbn [Str.split_from].
    rewrite prefix_char, Ha, (IH _ Hs), snoc_append. reflexivity.
Qed.

Lemma decimal_without (c : ascii) (s : string) :
  Char.is_decimal c = false ->
  all_decimal s = true -> Str.forallb (fun a => negb (Ascii.eqb a c)) s = true.
Proof.
  intros Hc. unfold all_decimal. induction s as [|a s IH]; simpl; [reflexivity|].
  intros [Ha Hs]%andb_true_iff. rewrite (IH Hs), andb_true_r.
  apply negb_true_iff, Ascii.eqb_neq. congruence.
Qed.

Lemma forallb_append (p : ascii -> bool) (s t : string) :
  Str.forallb p (s +:+ t) = Str.forallb p s && Str.forallb p t.
Proof.
  induction s as [|c s IH]; [reflexivity|].
  rewrite append_cons. cbn [Str.forallb]. rewrite IH. apply andb_assoc.
Qed.

(** ** Times written and read back *)

Lemma format_zero_nonneg (width : nat) (n : Z) :
  0 <= n ->
  all_decimal (PyInt.format_zero width n) = true /\
  PyInt.format_zero width n = PyInt.zfill width (PyInt.decimal (Z.abs_N n)).
Proof.
  intros Hn. unfold PyInt.format_zero.
  rewrite (proj2 (Z.ltb_ge n 0)) by lia.
  split; [apply zfill_all_decimal|reflexivity].
Qed.

(** ** Integers too large for a float *)

Lemma shr_1_m (r : shr_record) :
  0 <= shr_m r -> shr_m (shr_1 r) = Z.div2 (shr_m r) /\ 0 <= shr_m (shr_1 r).
Proof.
  destruct r as [m b c]. cbn [shr_m]. intros Hm.
  destruct m as [|[p|p|]|p]; cbn; try lia. 
Qed.

Lemma iter_shr_1_m (q : positive) :
  forall r, 0 <= shr_m r ->
    shr_m (SpecFloat.iter_pos shr_1 q r) = Z.shiftr (shr_m r) (Z.pos q).
Proof.
  induction q as [q IH|q IH|]; intros r Hr; cbn [SpecFloat.iter_pos].
  - destruct (shr_1_m r Hr) as [H1 H2].
    rewrite IH, IH, H1, Z.div2_spec, !Z.shiftr_shiftr by
      (try lia; rewrite ?IH by lia; apply Z.shiftr_nonneg; lia).
    f_equal. lia.
  - rewrite IH, IH, !Z.shiftr_shiftr by
      (try lia; rewrite ?IH by lia; apply Z.shiftr_nonneg; lia).
    f_equal. lia.
  - destruct (shr_1_m r Hr) as [H1 _]. rewrite H1. apply Z.div2_spec.
Qed.

Lemma digits2_pos_bounds (p : positive) :
  2 ^ (Z.pos (digits2_pos p) - 1) <= Z.pos p < 2 ^ Z.pos (digits2_pos p).
Proof.
  induction p as [p IH|p IH|]; cbn [digits2_pos]; [| |cbn; lia];
    rewrite Pos2Z.inj_succ;
    replace (Z.succ (Z.pos (digits2_pos p)) - 1) with (Z.succ (Z.pos (digits2_pos p) - 1)) by lia;
    rewrite !Z.pow_succ_r by lia; lia.
Qed.

(** Where the exponent is not in the subnormal range, shifting to the
    format leaves a positive mantissa. *)
Lemma shr_fexp_normal (p : positive) (e : Z) (l : location) :
  -1074 <= Z.pos (digits2_pos p) + e - 53 ->
  0 < shr_m (fst (shr_fexp PyFloat.prec PyFloat.emax (Z.pos p) e l)) /\
  Z.pos (digits2_pos p) + e - 53 <= snd (shr_fexp PyFloat.prec PyFloat.emax (Z.pos p) e l) /\
  e <= snd (shr_fexp PyFloat.prec PyFloat.emax (Z.pos p) e l).
Proof.
  intros Hnormal. unfold shr_fexp, fexp, emin, PyFloat.prec, PyFloat.emax.
  cbn [Zdigits2].
  replace (Z.max (Z.pos (digits2_pos p) + e - 53) (3 - 1024 - 53))
    with (Z.pos (digits2_pos p) + e - 53) by lia.
  replace (Z.pos (digits2_pos p) + e - 53 - e) with (Z.pos (digits2_pos p) - 53) by lia.
  assert (Hm : shr_m (shr_record_of_loc (Z.pos p) l) = Z.pos p)
    by (destruct l as [|[]]; reflexivity).
  pose proof (digits2_pos_bounds p) as [Hlow _].
  destruct (Z.pos (digits2_pos p) - 53) as [|q|q] eqn:Hq; cbn [shr fst snd].
  - rewrite Hm. lia.
  - rewrite iter_shr_1_m, Hm by (rewrite Hm; lia).
    rewrite Z.shiftr_div_pow2 by lia.
    assert (2 ^ 52 <= Z.pos p / 2 ^ Z.pos q).
    { apply Z.div_le_lower_bound; [apply Z.pow_pos_nonneg; lia|].
      rewrite <- Z.pow_add_r by lia.
      replace (Z.pos q + 52) with (Z.pos (digits2_pos p) - 1) by lia. exact Hlow. }
    assert (0 < 2 ^ 52) by (apply Z.pow_pos_nonneg; lia).
    lia.
  - rewrite Hm. lia.
Qed.

Lemma binary_round_aux_overflow (s : bool) (p : positive) (e : Z) (l : location) :
  972 <= Z.pos (digits2_pos p) + e - 53 ->
  binary_round_aux PyFloat.prec PyFloat.emax s (Z.pos p) e l = S754_infinity s.
Proof.
  intros Hbig. unfold binary_round_aux.
  destruct (shr_fexp_normal p e l ltac:(lia)) as (Hm & He & _).
  destruct (shr_fexp PyFloat.prec PyFloat.emax (Z.pos p) e l) as [mrs' e'].
  cbn [fst snd] in Hm, He.
  assert (Hround : 0 < round_nearest_even (shr_m mrs') (loc_of_shr_record mrs')).
  { unfold round_nearest_even.
    destruct (loc_of_shr_record mrs') as [|[]]; try destruct (Z.even _); lia. }
  destruct (round_nearest_even (shr_m mrs') (loc_of_shr_record mrs')) as [|p1|p1];
    try lia.
  destruct (shr_fexp_normal p1 e' loc_Exact ltac:(lia)) as (Hm2 & _ & He2).
  destruct (shr_fexp PyFloat.prec PyFloat.emax (Z.pos p1) e' loc_Exact) as [mrs'' e''].
  cbn [fst snd] in Hm2, He2.
  destruct (shr_m mrs'') as [|m|m]; try lia.
  unfold PyFloat.emax, PyFloat.prec.
  rewrite (proj2 (Z.leb_gt e'' (1024 - 53))) by lia. reflexivity.
Qed.

(** An integer of 2^1024 or more does not fit in a float. *)
Lemma of_Z_overflow (n : Z) :
  2 ^ 1024 <= n -> PyFloat.of_Z n = S754_infinity false.
Proof.
  intros Hn. assert (0 < 2 ^ 1024) by (apply Z.pow_pos_nonneg; lia).
  destruct n as [|p|p]; try lia.
  unfold PyFloat.of_Z, binary_normalize, binary_round.
  pose proof (digits2_pos_bounds p) as [_ Hhigh].
  assert (Hd : 1024 < Z.pos (digits2_pos p)).
  { destruct (Z.le_gt_cases (Z.pos (digits2_pos p)) 1024) as [Hle|Hgt]; [|lia].
    pose proof (Z.pow_le_mono_r 2 _ _ ltac:(lia) Hle). lia. }
  unfold shl_align, fexp, emin, PyFloat.prec, PyFloat.emax.
  replace (Z.max (Z.pos (digits2_pos p) + 0 - 53) (3 - 1024 - 53) - 0)
    with (Z.pos (digits2_pos p) - 53) by lia.
  destruct (Z.pos (digits2_pos p) - 53) as [|q|q] eqn:Hq; try lia.
  apply (binary_round_aux_overflow false p 0 loc_Exact). lia.
Qed.

Lemma small_count_digits (width : nat) (n : Z) :
  (width <= 3)%nat -> 0 <= n < 1000 ->
  (PyInt.count_digits (PyInt.format_zero width n) <= PyInt.max_str_digits)%nat.
Proof.
  intros Hwidth Hn. rewrite count_digits_format_zero.
  rewrite (proj2 (Z.ltb_ge n 0)) by lia.
  pose proof (decimal_length_le (Z.abs_N n) 3 ltac:(lia)) as Hlen.
  rewrite N2Z.inj_abs_N in Hlen. specialize (Hlen ltac:(cbn; lia)).
  unfold PyInt.max_str_digits. lia.
Qed.

(** The four fields of a time string are read back as the numbers they
    were written from, unless the hours have more digits than [int]
    accepts. *)
Lemma srt_fields_read_back (h m s ms : Z) :
  0 <= h -> 0 <= m < 1000 -> 0 <= s < 1000 -> 0 <= ms < 1000 ->
  srt_time_to_seconds
    (PyInt.format_zero 2 h +:+ ":" +:+ PyInt.format_zero 2 m +:+ ":"
       +:+ PyInt.format_zero 2 s +:+ "," +:+ PyInt.format_zero 3 ms)
  = (if (PyInt.count_digits (PyInt.format_zero 2 h) <=? PyInt.max_str_digits)%nat
     then
       let whole := PyFloat.of_Z (h * 3600 + m * 60 + s) in
       let fraction := PyFloat.true_div ms 1000 in
       if PyFloat.finite whole && PyFloat.finite fraction
       then Some (PyFloat.add whole fraction) else None
     else None).
Proof.
  intros Hh Hm Hs Hms.
  destruct (format_zero_nonneg 2 h Hh) as [Dh _].
  destruct (format_zero_nonneg 2 m ltac:(lia)) as [Dm _].
  destruct (format_zero_nonneg 2 s ltac:(lia)) as [Ds _].
  destruct (format_zero_nonneg 3 ms ltac:(lia)) as [Dms _].
  unfold srt_time_to_seconds, Str.split.
  change (":" +:+ ?x) with (String ":" x).
  rewrite split_char_first by (apply decimal_without; [reflexivity|exact Dh]).
  change (":" +:+ ?x) with (String ":" x).
  rewrite split_char_first by (apply decimal_without; [reflexivity|exact Dm]).
  rewrite split_char_none.
  2:{ rewrite forallb_append, (decimal_without ":" _ eq_refl Ds).
      change ("," +:+ ?x) with (String "," x). cbn [Str.forallb].
      rewrite (decimal_without ":" _ eq_refl Dms). reflexivity. }
  rewrite append_nil.
  change ("," +:+ ?x) with (String "," x).
  rewrite split_char_first by (apply decimal_without; [reflexivity|exact Ds]).
  rewrite split_char_none by (apply decimal_without; [reflexivity|exact Dms]).
  rewrite !append_nil.
  rewrite (of_string_format_zero_cases 2 h).
  rewrite (of_string_format_zero 2 m) by (apply small_count_digits; lia).
  rewrite (of_string_format_zero 2 s) by (apply small_count_digits; lia).
  rewrite (of_string_format_zero 3 ms) by (apply small_count_digits; lia).
  destruct (_ <=? _)%nat; reflexivity.
Qed.

(** Hours with more digits than [int] accepts do not fit in a float. *)
Lemma long_hours_overflow (total : Z) :
  0 <= total ->
  (PyInt.max_str_digits < PyInt.count_digits (PyInt.format_zero 2 (total / 3600000)))%nat ->
  PyFloat.finite (PyFloat.of_Z (total / 1000)) = false.
Proof.
  intros Htotal Hlong.
  assert (Hh : 0 <= total / 3600000) by (apply Z.div_pos; lia).
  rewrite count_digits_format_zero in Hlong.
  rewrite (proj2 (Z.ltb_ge _ 0)) in Hlong by lia.
  assert (Hlen : (PyInt.max_str_digits
                  < String.length (PyInt.decimal (Z.abs_N (total / 3600000))))%nat)
    by (unfold PyInt.max_str_digits in *; lia).
  assert (Hbig : 10 ^ Z.of_nat PyInt.max_str_digits <= total / 3600000).
  { destruct (Z.le_gt_cases (10 ^ Z.of_nat PyInt.max_str_digits) (total / 3600000))
      as [Hle|Hgt]; [exact Hle|].
    pose proof (decimal_length_le (Z.abs_N (total / 3600000)) PyInt.max_str_digits
                  ltac:(unfold PyInt.max_str_digits; lia)) as Hshort.
    rewrite N2Z.inj_abs_N, Z.abs_eq in Hshort by lia.
    specialize (Hshort Hgt). lia. }
  assert (Hpow : 2 ^ 1024 <= 10 ^ Z.of_nat PyInt.max_str_digits).
  { transitivity (10 ^ 1024); [apply Z.pow_le_mono_l; lia|].
    apply Z.pow_le_mono_r; [lia|]. unfold PyInt.max_str_digits. lia. }
  assert (Hdiv : total / 3600000 <= total / 1000)
    by (Z.div_mod_to_equations; lia).
  rewrite of_Z_overflow by lia. reflexivity.
Qed.

Lemma time_fields_recompose (total : Z) :
  total / 3600000 * 3600 + total mod 3600000 / 60000 * 60
    + total mod 60000 / 1000 = total / 1000.
Proof. Z.div_mod_to_equations. lia. Qed.

Lemma time_fraction (total : Z) : total mod 1000 mod 1000 = total mod 1000.
Proof. Z.div_mod_to_equations. lia. Qed.

Lemma fraction_finite (r : Z) :
  0 <= r < 1000 -> PyFloat.finite (PyFloat.true_div r 1000) = true.
Proof.
  intros Hr.
  assert (Hall : forallb (fun k => PyFloat.finite (PyFloat.true_div (Z.of_nat k) 1000))
                         (seq 0 1000) = true) by (vm_compute; reflexivity).
  rewrite forallb_forall in Hall.
  rewrite <- (Z2Nat.id r) by lia. apply Hall, in_seq. lia.
Qed.

(** The product of a float that is not below zero and a positive finite
    float is not a negative number. *)
Lemma mul_sign (x : float) (m : positive) (e : Z) :
  PyFloat.leb PyFloat.zero x = true ->
  match PyFloat.mul x (S754_finite false m e) with
  | S754_finite s _ _ | S754_infinity s => s = false
  | S754_zero _ | S754_nan => True
  end.
Proof.
  destruct x as [s|s| |s mx ex]; try destruct s; try discriminate;
    intros _; try reflexivity; try exact I.
  unfold PyFloat.mul, SFmul. cbn [xorb]. unfold binary_round_aux.
  repeat match goal with
         | |- context [let '(_, _) := ?p in _] => destruct p
         end.
  match goal with
  | |- context [match shr_m ?r with _ => _ end] => destruct (shr_m r)
  end; [exact I| |exact I].
  match goal with
  | |- context [if ?b then _ else _] => destruct b
  end; reflexivity.
Qed.

Lemma round_half_even_nonneg (x : float) (total : Z) :
  match x with
  | S754_finite s _ _ | S754_infinity s => s = false
  | S754_zero _ | S754_nan => True
  end ->
  PyFloat.round_half_even x = Some total -> 0 <= total.
Proof.
  destruct x as [s|s| |s m e]; simpl; try discriminate.
  - intros _ [= <-]. lia.
  - intros -> [= <-]. destruct e as [|k|k].
    + lia.
    + apply Z.shiftl_nonneg. lia.
    + pose proof (proj2 (Z.shiftr_nonneg (Z.pos m) (Z.pos k)) ltac:(lia)).
      destruct (_ || _); lia.
Qed.

(** X1.  A time that [format_srt_time] writes is read back by
    [srt_time_to_seconds] from its number of milliseconds: when the time,
    rounded to milliseconds, is [total] ms, the string read back gives the
    float sum of the [total / 1000] whole seconds and of the quotient
    [(total mod 1000) / 1000], provided the whole seconds fit in a float. *)
Theorem srt_time_written_and_read (seconds : float) (time_str : string) :
  format_srt_time seconds = Some time_str ->
  exists total,
    PyFloat.round_half_even (PyFloat.mul seconds (PyFloat.of_Z 1000)) = Some total /\
    0 <= total /\
    srt_time_to_seconds time_str
    = (if PyFloat.finite (PyFloat.of_Z (total / 1000))
       then Some (PyFloat.add (PyFloat.of_Z (total / 1000))
                              (PyFloat.true_div (total mod 1000) 1000))
       else None).
Proof.
  unfold format_srt_time.
  destruct (PyFloat.leb PyFloat.zero seconds) eqn:Hle; [|discriminate].
  destruct (PyFloat.round_half_even _) as [total|] eqn:Hround; [|discriminate].
  cbn [mbind option_bind]. intros [= <-].
  assert (Hnonneg : 0 <= total).
  { eapply round_half_even_nonneg; [|exact Hround].
    apply (mul_sign seconds _ _ Hle). }
  exists total. split; [reflexivity|]. split; [exact Hnonneg|].
  rewrite srt_fields_read_back.
  - destruct (Nat.leb_spec (PyInt.count_digits (PyInt.format_zero 2 (total / 3600000)))
                           PyInt.max_str_digits) as [Hshort|Hlong].
    + cbv zeta. rewrite time_fields_recompose.
      rewrite fraction_finite by (apply Z.mod_pos_bound; lia).
      rewrite andb_true_r. reflexivity.
    + rewrite (long_hours_overflow total Hnonneg Hlong). reflexivity.
  - apply Z.div_pos; lia.
  - Z.div_mod_to_equations; lia.
  - Z.div_mod_to_equations; lia.
  - Z.div_mod_to_equations; lia.
Qed.

Lemma srt_time_written_and_read_witness :
  exists total,
    PyFloat.round_half_even (PyFloat.mul seconds_12_3 (PyFloat.of_Z 1000)) = Some total /\
    0 <= total /\
    srt_time_to_seconds "00:00:12,300"
    = (if PyFloat.finite (PyFloat.of_Z (total / 1000))
       then Some (PyFloat.add (PyFloat.of_Z (total / 1000))
                              (PyFloat.true_div (total mod 1000) 1000))
       else None).
Proof.
  apply (srt_time_written_and_read seconds_12_3 "00:00:12,300").
  vm_compute. reflexivity.
Defined.

(** ** Sanitized file names *)

Lemma forallb_filter (p : ascii -> bool) (s : string) :
  Str.forallb p (Str.filter p s) = true.
Proof.
  induction s as [|c s IH]; [reflexivity|]. cbn [Str.filter].
  destruct (p c) eqn:Hc; [|exact IH]. cbn [Str.forallb]. rewrite Hc. exact IH.
Qed.

Lemma forallb_lstrip (p q : ascii -> bool) (s : string) :
  Str.forallb p s = true -> Str.forallb p (Str.lstrip_by q s) = true.
Proof.
  induction s as [|c s IH]; [reflexivity|]. intros Hs. cbn [Str.lstrip_by].
  destruct (q c); [|exact Hs].
  cbn [Str.forallb] in Hs. apply andb_true_iff in Hs. apply IH, Hs.
Qed.

Lemma forallb_rstrip (p q : ascii -> bool) (s : string) :
  Str.forallb p s = true -> Str.forallb p (Str.rstrip_by q s) = true.
Proof.
  induction s as [|c s IH]; [reflexivity|]. intros Hs.
  cbn [Str.forallb] in Hs. apply andb_true_iff in Hs. destruct Hs as [Hc Hs].
  cbn [Str.rstrip_by]. destruct (Str.is_empty _ && q c); [reflexivity|].
  cbn [Str.forallb]. rewrite Hc, (IH Hs). reflexivity.
Qed.

Lemma forallb_take (p : ascii -> bool) (n : nat) (s : string) :
  Str.forallb p s = true -> Str.forallb p (Str.take n s) = true.
Proof.
  revert s. induction n as [|n IH]; intros [|c s] Hs; try reflexivity.
  cbn [Str.forallb] in Hs. apply andb_true_iff in Hs. destruct Hs as [Hc Hs].
  cbn [Str.take Str.forallb]. rewrite Hc, (IH _ Hs). reflexivity.
Qed.

Lemma length_take (n : nat) (s : string) :
  (String.length (Str.take n s) <= n)%nat.
Proof.
  revert s. induction n as [|n IH]; intros [|c s]; simpl; try lia.
  specialize (IH s). lia.
Qed.

Lemma take_short (n : nat) (s : string) :
  (String.length (Str.take n s) < n)%nat -> Str.take n s = s.
Proof.
  revert s. induction n as [|n IH]; intros [|c s]; simpl; try lia; try reflexivity.
  intros H. f_equal. apply IH. lia.
Qed.

Lemma collapse_whitespace_safe (in_run : bool) (s : string) :
  Str.forallb (fun c => negb (illegal_in_filename c)) s = true ->
  Str.forallb filename_safe (collapse_whitespace in_run s) = true.
Proof.
  revert in_run. induction s as [|c s IH]; intros in_run Hs; [reflexivity|].
  cbn [Str.forallb] in Hs. apply andb_true_iff in Hs. destruct Hs as [Hc Hs].
  cbn [collapse_whitespace]. destruct (Char.isspace c) eqn:Hspace.
  - destruct in_run; [apply IH, Hs|].
    cbn [Str.forallb]. rewrite (IH _ Hs). reflexivity.
  - cbn [Str.forallb]. unfold filename_safe at 1.
    rewrite Hc, Hspace, (IH _ Hs). reflexivity.
Qed.

(** X2.  A sanitized file name has at most 100 characters and contains no
    whitespace and none of the characters backslash, slash, star, question
    mark, colon, double quote, angle brackets and bar. *)
Theorem sanitize_filename_safe (name : string) :
  (String.length (sanitize_filename name) <= 100)%nat /\
  Str.forallb filename_safe (sanitize_filename name) = true.
Proof.
  unfold sanitize_filename. split; [apply length_take|].
  apply forallb_take. unfold Str.strip_chars, Str.strip_by.
  apply forallb_rstrip, forallb_lstrip, collapse_whitespace_safe, forallb_filter.
Qed.

Lemma lstrip_head (p : ascii -> bool) (s : string) (c : ascii) (rest : string) :
  Str.lstrip_by p s = String c rest -> p c = false.
Proof.
  induction s as [|a s IH]; [discriminate|]. cbn [Str.lstrip_by].
  destruct (p a) eqn:Ha; [exact IH|]. intros [= <- _]. exact Ha.
Qed.

Lemma rstrip_head (p : ascii -> bool) (s : string) (c : ascii) (rest : string) :
  Str.rstrip_by p s = String c rest -> exists rest', s = String c rest'.
Proof.
  destruct s as [|a s]; [discriminate|]. cbn [Str.rstrip_by].
  destruct (Str.is_empty _ && p a); [discriminate|].
  intros [= <- _]. eexists. reflexivity.
Qed.

Lemma strip_head (p : ascii -> bool) (s : string) (c : ascii) (rest : string) :
  Str.strip_by p s = String c rest -> p c = false.
Proof.
  unfold Str.strip_by. intros H.
  destruct (rstrip_head _ _ _ _ H) as [rest' Hl].
  eapply lstrip_head, Hl.
Qed.

Lemma rstrip_rstrip (p : ascii -> bool) (s : string) :
  Str.rstrip_by p (Str.rstrip_by p s) = Str.rstrip_by p s.
Proof.
  induction s as [|c s IH]; [reflexivity|]. cbn [Str.rstrip_by].
  destruct (Str.is_empty (Str.rstrip_by p s) && p c) eqn:Hcond; [reflexivity|].
  cbn [Str.rstrip_by]. rewrite IH, Hcond. reflexivity.
Qed.

Lemma strip_strip (p : ascii -> bool) (s : string) :
  Str.strip_by p (Str.strip_by p s) = Str.strip_by p s.
Proof.
  unfold Str.strip_by.
  assert (Hl : Str.lstrip_by p (Str.rstrip_by p (Str.lstrip_by p s))
               = Str.rstrip_by p (Str.lstrip_by p s)).
  { destruct (Str.rstrip_by p (Str.lstrip_by p s)) as [|c rest] eqn:H;
      [reflexivity|].
    cbn [Str.lstrip_by]. rewrite (strip_head p s c rest H). reflexivity. }
  rewrite Hl. apply rstrip_rstrip.
Qed.

(** X3.  A sanitized file name never starts with a dot, and one of fewer
    than 100 characters does not end with a dot either: stripping dots
    leaves it as it is.  (A name cut at 100 characters may end with a
    dot.) *)
Theorem sanitize_filename_dots (name : string) :
  (forall c rest, sanitize_filename name = String c rest -> c <> "."%char) /\
  ((String.length (sanitize_filename name) < 100)%nat ->
   Str.strip_chars "." (sanitize_filename name) = sanitize_filename name).
Proof.
  unfold sanitize_filename. split.
  - intros c rest H.
    destruct (Str.strip_chars "." _) as [|a s] eqn:Hstrip; [discriminate|].
    injection H as -> _. apply strip_head in Hstrip.
    intros ->. discriminate Hstrip.
  - intros Hshort. rewrite (take_short _ _ Hshort). apply strip_strip.
Qed.

Lemma sanitize_filename_dots_witness :
  Str.strip_chars "." (sanitize_filename "..The Storm?..")
  = sanitize_filename "..The Storm?..".
Proof.
  apply (proj2 (sanitize_filename_dots "..The Storm?..")).
  vm_compute. lia.
Defined.

(** ** Roman numerals: failure and value *)


Lemma roman_loop_upper_bound (s : string) :
  forall prev result n,
    match prev with Some p => 1 <= p | None => True end ->
    roman_loop prev result s = Some n ->
    n <= result + 1000 * Z.of_nat (String.length s).
Proof.
  induction s as [|c s IH]; intros prev result n Hprev.
  - intros [= <-]. simpl. lia.
  - cbn [roman_loop String.length].
    destruct (roman_map c) as [v|] eqn:Hv; [|discriminate].
    pose proof (roman_map_digit _ _ Hv) as Hdigit.
    unfold roman_digit_value in Hdigit.
    destruct prev as [p|]; [case_bool_decide|]; intros Hloop;
      apply IH in Hloop; cbv beta iota.
    all: lia.
Qed.

Lemma roman_loop_additive (s : string) :
  forall p result n,
    Sorted Z.ge (p :: roman_values s) ->
    roman_loop (Some p) result (Str.upper s) = Some n ->
    n = result + sum_of (roman_values s).
Proof.
  induction s as [|c s IH]; intros p result n Hsorted.
  - intros [= <-]. simpl. lia.
  - cbn [Str.upper Str.map roman_loop roman_values sum_of foldr] in *.
    fold (Str.upper s). fold (sum_of (roman_values s)).
    destruct (roman_map (Char.upper c)) as [v|]; [|discriminate].
    change (default 0 (Some v)) with v in *.
    apply Sorted_inv in Hsorted. destruct Hsorted as [Hrest Hhd].
    apply HdRel_inv in Hhd.
    rewrite bool_decide_eq_false_2 by lia.
    intros Hloop. apply (IH _ _ _ Hrest) in Hloop. lia.
Qed.




(** X5.  The value [roman_to_int] gives to a word is at most 1000 times its
    length, is at least 1 when the word is not empty, and is the sum of the
    values of its digits when no digit is larger than the one before it, so
    that a sequence such as IIII, which is not a canonical numeral, is read
    as the sum of its digits. *)
Theorem roman_to_int_value (s : string) (n : Z) :
  roman_to_int s = Some n ->
  n <= 1000 * Z.of_nat (String.length s) /\
  (s <> "" -> 1 <= n) /\
  (Sorted Z.ge (roman_values s) -> n = sum_of (roman_values s)).
Proof.
  intros Hn. split; [|split].
  - unfold roman_to_int in Hn.
    apply (roman_loop_upper_bound _ None 0 n I) in Hn.
    assert (Hlen : forall t, String.length (Str.upper t) = String.length t)
      by (unfold Str.upper; induction t as [|a t IHt];
          [reflexivity|cbn [Str.map String.length]; rewrite IHt; reflexivity]).
    rewrite Hlen in Hn. lia.
  - intros Hne. exact (roman_to_int_positive s n Hne Hn).
  - intros Hsorted. unfold roman_to_int in Hn.
    destruct s as [|c s]; [injection Hn as <-; reflexivity|].
    cbn [Str.upper Str.map roman_loop roman_values sum_of foldr] in *.
    fold (Str.upper s) in Hn. fold (sum_of (roman_values s)).
    destruct (roman_map (Char.upper c)) as [v|]; [|discriminate].
    change (default 0 (Some v)) with v in *.
    apply (roman_loop_additive _ _ _ _ Hsorted) in Hn. lia.
Qed.

Lemma roman_to_int_value_witness :
  4 <= 1000 * Z.of_nat (String.length "IIII") /\
  ("IIII" <> "" -> 1 <= 4) /\
  (Sorted Z.ge (roman_values "IIII") -> 4 = sum_of (roman_values "IIII")).
Proof.
  apply (roman_to_int_value "IIII" 4). reflexivity.
Defined.

(** ** Candidates of the scanner: titles and count *)

Section ScannerShape.

Variable word_to_num : string -> w2n_outcome.






End ScannerShape.




(** ** The cache and the scanner *)





(** ** Embedded chapters *)

Lemma embedded_from_some (probe_chapters : list probe_chapter) :
  forall i chapters,
    embedded_from i probe_chapters = Some chapters ->
    length chapters = length probe_chapters /\
    (forall k c, chapters !! k = Some c ->
       number c = Z.of_nat (i + k) + 1 /\
       is_Some (title c) /\
       probe_chapters !! k ≫= probe_start_time = Some (start_time c)).
Proof.
  induction probe_chapters as [|chap rest IH]; intros i chapters.
  - intros [= <-]. split; [reflexivity|]. intros k c H. discriminate H.
  - cbn [embedded_from].
    destruct (probe_start_time chap) as [start|] eqn:Hstart; [|discriminate].
    destruct (embedded_from (S i) rest) as [later|] eqn:Hlater; [|discriminate].
    cbn [mbind option_bind]. intros [= <-].
    destruct (IH _ _ Hlater) as [Hlen Hrest].
    split; [simpl; congruence|].
    intros [|k] c.
    + intros [= <-]. cbn [number title start_time]. rewrite Nat.add_0_r.
      split; [reflexivity|]. split; [eexists; reflexivity|exact Hstart].
    + intros Hc. destruct (Hrest k c Hc) as [Hnumber [Htitle Htime]].
      split; [rewrite Hnumber; lia|]. split; assumption.
Qed.

Lemma embedded_from_defined (probe_chapters : list probe_chapter) :
  forall i,
    is_Some (embedded_from i probe_chapters)
    <-> Forall (fun chap => is_Some (probe_start_time chap)) probe_chapters.
Proof.
  induction probe_chapters as [|chap rest IH]; intros i.
  - split; [constructor|]. intros _. eexists. reflexivity.
  - cbn [embedded_from]. rewrite Forall_cons, <- (IH (S i)).
    destruct (probe_start_time chap) as [start|].
    + destruct (embedded_from (S i) rest) as [later|]; cbn [mbind option_bind].
      * split; [intros _; split; eexists; reflexivity|intros _; eexists; reflexivity].
      * split; [intros [? H]; discriminate H|intros [_ [? H]]; discriminate H].
    + split; [intros [? H]; discriminate H|intros [[? H] _]; discriminate H].
Qed.

(** X10.  Chapters taken from the metadata of the recording are numbered
    1, 2, 3, ... in the order of the metadata, each with a title and with
    its start time; if one start time cannot be converted, no chapter at all
    is returned.  On such chapters the sequencer never writes a range: every
    label is the chapter's own number. *)
Theorem embedded_chapters_numbered (probe_chapters : list probe_chapter) :
  let chapters := extract_embedded_chapters probe_chapters in
  (Forall (fun chap => is_Some (probe_start_time chap)) probe_chapters ->
   length chapters = length probe_chapters) /\
  (~ Forall (fun chap => is_Some (probe_start_time chap)) probe_chapters ->
   chapters = []) /\
  (forall k c, chapters !! k = Some c ->
     number c = Z.of_nat k + 1 /\
     is_Some (title c) /\
     probe_chapters !! k ≫= probe_start_time = Some (start_time c)) /\
  (forall k p, process_chapter_gaps chapters !! k = Some p ->
     number_str p = PyInt.format_03 (Z.of_nat k + 1)).
Proof.
  cbv zeta. unfold extract_embedded_chapters.
  pose proof (embedded_from_defined probe_chapters 0) as Hdefined.
  destruct (embedded_from 0 probe_chapters) as [chapters|] eqn:Hfrom;
    cbn [default from_option id].
  - destruct (embedded_from_some _ _ _ Hfrom) as [Hlen Hall].
    assert (Hnumbers : forall k c, chapters !! k = Some c -> number c = Z.of_nat k + 1)
      by (intros k c Hc; apply (Hall k c Hc)).
    split; [intros _; exact Hlen|].
    split; [intros Hnot; exfalso; apply Hnot, Hdefined; eexists; reflexivity|].
    split; [exact Hall|].
    intros k p Hp.
    destruct (chapters !! k) as [c|] eqn:Hc.
    + rewrite (process_chapter_gaps_lookup _ _ _ Hc) in Hp.
      injection Hp as <-. cbn [number_str].
      rewrite (Hnumbers _ _ Hc).
      destruct (chapters !! (k + 1)%nat) as [d|] eqn:Hd; cbn [fmap option_fmap option_map gap_label];
        [|reflexivity].
      rewrite (Hnumbers _ _ Hd).
      rewrite bool_decide_eq_false_2 by lia. reflexivity.
    + apply lookup_ge_None in Hc. apply lookup_lt_Some in Hp.
      rewrite process_chapter_gaps_length in Hp. lia.
  - split; [intros Hall; apply Hdefined in Hall; destruct Hall as [? H]; discriminate H|].
    split; [reflexivity|].
    split; intros k c H; discriminate H.
Qed.

Lemma embedded_chapters_numbered_witness :
  length (extract_embedded_chapters
            [ProbeChapter (Some PyFloat.zero) None;
             ProbeChapter (Some (PyFloat.of_Z 600)) (Some "Second")]) = 2%nat.
Proof.
  apply (proj1 (embedded_chapters_numbered
                  [ProbeChapter (Some PyFloat.zero) None;
                   ProbeChapter (Some (PyFloat.of_Z 600)) (Some "Second")])).
  repeat constructor; eexists; reflexivity.
Defined.

(** ** When the cutting loop stops early *)

Lemma cut_loop_count (extract_title : bool) (chapters_to_cut : list processed_chapter) :
  forall segments completed,
    cut_loop extract_title chapters_to_cut = (segments, completed) ->
    if completed
    then length segments = Nat.pred (length chapters_to_cut)
    else (length segments < Nat.pred (length chapters_to_cut))%nat.
Proof.
  induction chapters_to_cut as [|cur rest IH]; intros segments completed.
  - intros [= <- <-]. reflexivity.
  - cbn [cut_loop]. destruct rest as [|nxt rest'].
    + intros [= <- <-]. reflexivity.
    + destruct (cut_segment extract_title cur nxt) as [first|].
      * destruct (cut_loop extract_title (nxt :: rest')) as [later done] eqn:Hloop.
        intros [= <- <-]. specialize (IH later done eq_refl).
        destruct done; cbn [length Nat.pred] in *; lia.
      * intros [= <- <-]. cbn [length Nat.pred]. lia.
Qed.







Lemma cut_plan_count (extract_title : bool) (chapters : list chapter)
    (total_duration_sec : float) (segments : list segment) (completed : bool) :
  cut_plan extract_title chapters total_duration_sec = (segments, completed) ->
  if completed then length segments = length chapters
  else (length segments < length chapters)%nat.
Proof.
  intros Hcount. unfold cut_plan in Hcount.
  apply cut_loop_count in Hcount.
  rewrite length_app, process_chapter_gaps_length in Hcount.
  cbn [length] in Hcount. rewrite Nat.add_1_r in Hcount. cbn [Nat.pred] in Hcount.
  exact Hcount.
Qed.

(** X12.  Whatever the times, the cutting loop exports at most one segment
    per chapter, strictly fewer when it stops early and exactly one per
    chapter of a non-empty list when it runs to its end, and no segment
    starts before 0 ms. *)
Theorem cut_plan_segments_bounded (extract_title : bool) (chapters : list chapter)
    (total_duration_sec : float) (segments : list segment) (completed : bool) :
  cut_plan extract_title chapters total_duration_sec = (segments, completed) ->
  (length segments <= length chapters)%nat /\
  (completed = false -> (length segments < length chapters)%nat) /\
  (completed = true -> length segments = length chapters) /\
  Forall (fun seg => 0 <= start_ms seg) segments.
Proof.
  intros Hplan.
  pose proof (cut_plan_count _ _ _ _ _ Hplan) as Hcount.
  split; [destruct completed; lia|].
  split; [intros ->; exact Hcount|].
  split; [intros ->; exact Hcount|].
  apply Forall_lookup. intros i seg Hseg.
  destruct (cut_loop_segments _ _ _ _ _ _ Hplan Hseg)
    as [cur [nxt [a [b [_ [_ [_ [_ ->]]]]]]]].
  cbn [planned_segment start_ms]. unfold clip_start. lia.
Qed.

Lemma cut_plan_segments_bounded_witness :
  (length [Segment 0 100000 "001.mp3"] <= 3)%nat /\
  (false = false -> (length [Segment 0 100000 "001.mp3"] < 3)%nat) /\
  (false = true -> length [Segment 0 100000 "001.mp3"] = 3%nat) /\
  Forall (fun seg => 0 <= start_ms seg) [Segment 0 100000 "001.mp3"].
Proof.
  apply (cut_plan_segments_bounded false
           [Chapter 1 PyFloat.zero None; Chapter 2 (PyFloat.of_Z 100) None;
            Chapter 3 S754_nan None]
           (PyFloat.of_Z 200)).
  vm_compute. reflexivity.
Defined.

(** ** File names of the segments *)

Lemma leading_digits_append (d : string) (c : ascii) (rest : string) :
  all_decimal d = true -> Char.is_decimal c = false ->
  leading_digits (d +:+ String c rest) = d.
Proof.
  intros Hd Hc. unfold all_decimal in Hd.
  induction d as [|a d IH].
  - rewrite append_nil. cbn [leading_digits]. rewrite Hc. reflexivity.
  - cbn [Str.forallb] in Hd. apply andb_true_iff in Hd. destruct Hd as [Ha Hd].
    rewrite append_cons. cbn [leading_digits]. rewrite Ha, (IH Hd). reflexivity.
Qed.

Lemma format_03_all_decimal (n : Z) :
  0 <= n -> all_decimal (PyInt.format_03 n) = true.
Proof. intros Hn. apply (format_zero_nonneg 3 n Hn). Qed.

Lemma append_assoc (a b c : string) : (a +:+ b) +:+ c = a +:+ b +:+ c.
Proof.
  induction a as [|x a IH]; [reflexivity|].
  rewrite !append_cons. f_equal. exact IH.
Qed.

(** The name of the file of a segment starts with the number of its
    chapter, followed by a character that is not a digit. *)
Lemma filename_leading_digits (extract_title : bool) (own : Z) (next : option Z)
    (sanitized : string) :
  0 <= own ->
  leading_digits
    (if extract_title
     then gap_label own next +:+ "." +:+ sanitized +:+ ".mp3"
     else gap_label own next +:+ ".mp3")
  = PyInt.format_03 own.
Proof.
  intros Hown. pose proof (format_03_all_decimal own Hown) as Hd.
  assert (Hlabel : forall tail c,
            Char.is_decimal c = false ->
            leading_digits (gap_label own next +:+ String c tail)
            = PyInt.format_03 own).
  { intros tail c Hc. unfold gap_label.
    destruct next as [n|]; [case_bool_decide|].
    - rewrite !append_assoc. change ("-" +:+ ?x) with (String "-" x).
      apply leading_digits_append; [exact Hd|reflexivity].
    - apply leading_digits_append; assumption.
    - apply leading_digits_append; assumption. }
  destruct extract_title.
  - change ("." +:+ ?x) with (String "." x). apply Hlabel. reflexivity.
  - change (".mp3") with (String "." "mp3"). apply Hlabel. reflexivity.
Qed.

Lemma cut_plan_filename (extract_title : bool) (chapters : list chapter)
    (total_duration_sec : float) (segments : list segment) (completed : bool)
    (i : nat) (seg : segment) :
  cut_plan extract_title chapters total_duration_sec = (segments, completed) ->
  segments !! i = Some seg ->
  exists c, chapters !! i = Some c /\
    output_filename seg
    = (let label := gap_label (number c) (number <$> chapters !! (i + 1)%nat) in
       if extract_title
       then label +:+ "." +:+ sanitize_filename (default "" (title c)) +:+ ".mp3"
       else label +:+ ".mp3").
Proof.
  intros Hplan Hseg.
  pose proof (cut_plan_count _ _ _ _ _ Hplan) as Hle.
  pose proof (lookup_lt_Some _ _ _ Hseg) as Hlt.
  unfold cut_plan in Hplan.
  destruct (cut_loop_segments _ _ _ _ _ _ Hplan Hseg)
    as [cur [nxt [a [b [Hcur [_ [_ [_ ->]]]]]]]].
  rewrite chapters_to_cut_lookup in Hcur.
  destruct (chapters !! i) as [c|] eqn:Hc;
    [|apply lookup_ge_None in Hc; destruct completed; lia].
  injection Hcur as <-. exists c. split; reflexivity.
Qed.

(** X13.  When the chapter numbers are not negative and increase strictly
    along the list, no two chapters get the same label and no two segments
    of the cut plan get the same file name, with or without titles: no
    exported file overwrites another. *)
Theorem cut_plan_filenames_distinct (extract_title : bool) (chapters : list chapter)
    (total_duration_sec : float) (segments : list segment) (completed : bool) :
  strictly_increasing (number <$> chapters) ->
  Forall (fun c => 0 <= number c) chapters ->
  cut_plan extract_title chapters total_duration_sec = (segments, completed) ->
  (forall i j p q,
     process_chapter_gaps chapters !! i = Some p ->
     process_chapter_gaps chapters !! j = Some q ->
     number_str p = number_str q -> i = j) /\
  (forall i j a b,
     segments !! i = Some a -> segments !! j = Some b ->
     output_filename a = output_filename b -> i = j).
Proof.
  intros Hincr Hnonneg Hplan.
  assert (Hindex : forall i j c d,
            chapters !! i = Some c -> chapters !! j = Some d ->
            PyInt.format_03 (number c) = PyInt.format_03 (number d) -> i = j).
  { intros i j c d Hc Hd Hformat.
    assert (Hsame : number c = number d).
    { apply (format_zero_injective 3). exact Hformat. }
    assert (Hi : (number <$> chapters) !! i = Some (number c))
      by (rewrite list_lookup_fmap, Hc; reflexivity).
    assert (Hj : (number <$> chapters) !! j = Some (number d))
      by (rewrite list_lookup_fmap, Hd; reflexivity).
    destruct (Nat.lt_trichotomy i j) as [Hlt|[Heq|Hgt]]; [|exact Heq|].
    - pose proof (Hincr _ _ _ _ Hlt Hi Hj). lia.
    - pose proof (Hincr _ _ _ _ Hgt Hj Hi). lia. }
  rewrite Forall_lookup in Hnonneg.
  split.
  - intros i j p q Hp Hq Hlabel.
    destruct (chapters !! i) as [c|] eqn:Hc.
    2:{ apply lookup_ge_None in Hc. apply lookup_lt_Some in Hp.
        rewrite process_chapter_gaps_length in Hp. lia. }
    destruct (chapters !! j) as [d|] eqn:Hd.
    2:{ apply lookup_ge_None in Hd. apply lookup_lt_Some in Hq.
        rewrite process_chapter_gaps_length in Hq. lia. }
    rewrite (process_chapter_gaps_lookup _ _ _ Hc) in Hp.
    rewrite (process_chapter_gaps_lookup _ _ _ Hd) in Hq.
    injection Hp as <-. injection Hq as <-. cbn [number_str] in Hlabel.
    apply (Hindex i j c d Hc Hd).
    rewrite <- (filename_leading_digits false (number c)
                  (number <$> chapters !! (i + 1)%nat) "" (Hnonneg _ _ Hc)).
    rewrite <- (filename_leading_digits false (number d)
                  (number <$> chapters !! (j + 1)%nat) "" (Hnonneg _ _ Hd)).
    cbv iota. rewrite Hlabel. reflexivity.
  - intros i j a b Ha Hb Hname.
    destruct (cut_plan_filename _ _ _ _ _ _ _ Hplan Ha) as [c [Hc Hfa]].
    destruct (cut_plan_filename _ _ _ _ _ _ _ Hplan Hb) as [d [Hd Hfb]].
    apply (Hindex i j c d Hc Hd).
    rewrite <- (filename_leading_digits extract_title (number c)
                  (number <$> chapters !! (i + 1)%nat)
                  (sanitize_filename (default "" (title c))) (Hnonneg _ _ Hc)).
    rewrite <- (filename_leading_digits extract_title (number d)
                  (number <$> chapters !! (j + 1)%nat)
                  (sanitize_filename (default "" (title d))) (Hnonneg _ _ Hd)).
    cbv zeta in Hfa, Hfb. rewrite <- Hfa, <- Hfb, Hname. reflexivity.
Qed.

Lemma cut_plan_filenames_distinct_witness :
  (forall i j p q,
     process_chapter_gaps
       [Chapter 1 PyFloat.zero (Some "The Start"); Chapter 2 (PyFloat.of_Z 100) None]
       !! i = Some p ->
     process_chapter_gaps
       [Chapter 1 PyFloat.zero (Some "The Start"); Chapter 2 (PyFloat.of_Z 100) None]
       !! j = Some q ->
     number_str p = number_str q -> i = j) /\
  (forall i j a b,
     [Segment 0 100000 "001.The.Start.mp3"; Segment 99500 200000 "002..mp3"] !! i = Some a ->
     [Segment 0 100000 "001.The.Start.mp3"; Segment 99500 200000 "002..mp3"] !! j = Some b ->
     output_filename a = output_filename b -> i = j).
Proof.
  apply (cut_plan_filenames_distinct true
           [Chapter 1 PyFloat.zero (Some "The Start"); Chapter 2 (PyFloat.of_Z 100) None]
           (PyFloat.of_Z 200)
           [Segment 0 100000 "001.The.Start.mp3"; Segment 99500 200000 "002..mp3"] true).
  - intros i j x y Hlt Hi Hj.
    destruct i as [|[|i]]; destruct j as [|[|j]]; simpl in Hi, Hj;
      try discriminate; try lia; injection Hi as <-; injection Hj as <-; lia.
  - repeat constructor; simpl; lia.
  - vm_compute. reflexivity.
Defined.

(** ** Writing the transcript: times that cannot be written *)

Lemma round_half_even_defined (x : float) :
  is_Some (PyFloat.round_half_even x) <-> PyFloat.finite x = true.
Proof.
  destruct x; simpl; split; try discriminate; try reflexivity;
    try (intros [? H]; discriminate H); intros _; eexists; reflexivity.
Qed.

Lemma format_srt_time_defined (x : float) :
  is_Some (format_srt_time x) <-> writable_time x = true.
Proof.
  unfold format_srt_time, writable_time.
  destruct (PyFloat.leb PyFloat.zero x); cbn [andb].
  - rewrite <- round_half_even_defined.
    destruct (PyFloat.round_half_even _); cbn [mbind option_bind].
    + split; intros _; eexists; reflexivity.
    + split; intros [? H]; discriminate H.
  - split; [intros [? H]; discriminate H|discriminate].
Qed.

Lemma write_srt_blocks_writable (segment : transcript_segment)
    (rest : list transcript_segment) (i : nat) :
  writable_segment segment = true ->
  exists block,
    write_srt_blocks i (segment :: rest)
    = (block +:+ fst (write_srt_blocks (S i) rest), snd (write_srt_blocks (S i) rest)) /\
    forall rest', write_srt_blocks i (segment :: rest')
                  = (block +:+ fst (write_srt_blocks (S i) rest'),
                     snd (write_srt_blocks (S i) rest')).
Proof.
  unfold writable_segment. intros [Hstart Hstop]%andb_true_iff.
  apply format_srt_time_defined in Hstart, Hstop.
  destruct Hstart as [start Hstart]. destruct Hstop as [stop Hstop].
  exists (PyInt.decimal (N.of_nat (i + 1)) +:+ newline +:+ start +:+ " --> " +:+ stop
            +:+ newline +:+ Str.strip (seg_text segment) +:+ newline +:+ newline).
  assert (Hgen : forall rest', write_srt_blocks i (segment :: rest')
            = ((PyInt.decimal (N.of_nat (i + 1)) +:+ newline +:+ start +:+ " --> "
                  +:+ stop +:+ newline +:+ Str.strip (seg_text segment)
                  +:+ newline +:+ newline) +:+ fst (write_srt_blocks (S i) rest'),
               snd (write_srt_blocks (S i) rest'))).
  { intros rest'. cbn [write_srt_blocks]. rewrite Hstart, Hstop.
    destruct (write_srt_blocks (S i) rest') as [later completed]. cbn [fst snd].
    f_equal. rewrite !append_assoc. reflexivity. }
  split; [apply Hgen|exact Hgen].
Qed.

Lemma write_srt_blocks_stops (good : list transcript_segment) :
  forall i bad rest,
    Forall (fun segment => writable_segment segment = true) good ->
    writable_segment bad = false ->
    write_srt_blocks i (good ++ bad :: rest)%list
    = (fst (write_srt_blocks i good)
         +:+ PyInt.decimal (N.of_nat (i + length good + 1)) +:+ newline,
       false) /\
    snd (write_srt_blocks i good) = true.
Proof.
  induction good as [|segment good IH]; intros i bad rest Hgood Hbad.
  - cbn [app write_srt_blocks fst snd length]. rewrite Nat.add_0_r, append_nil.
    split; [|reflexivity].
    unfold writable_segment in Hbad.
    destruct (format_srt_time (seg_start bad)) as [start|] eqn:Hstart; [|reflexivity].
    destruct (format_srt_time (seg_end bad)) as [stop|] eqn:Hstop; [|reflexivity].
    assert (H1 : writable_time (seg_start bad) = true)
      by (apply format_srt_time_defined; eexists; exact Hstart).
    assert (H2 : writable_time (seg_end bad) = true)
      by (apply format_srt_time_defined; eexists; exact Hstop).
    rewrite H1, H2 in Hbad. discriminate Hbad.
  - apply Forall_cons in Hgood. destruct Hgood as [Hsegment Hgood].
    destruct (write_srt_blocks_writable segment good i Hsegment) as [block [_ Hblock]].
    change ((segment :: good) ++ bad :: rest)%list
      with (segment :: (good ++ bad :: rest))%list.
    rewrite !Hblock.
    destruct (IH (S i) bad rest Hgood Hbad) as [Hrest Hdone].
    rewrite Hrest, Hdone. cbn [fst snd length].
    split; [|reflexivity]. f_equal.
    rewrite append_assoc.
    replace (i + S (length good) + 1)%nat with (S i + length good + 1)%nat by lia.
    reflexivity.
Qed.

(** X14.  [write_srt_file] writes all blocks exactly when every time of
    every segment is neither negative nor a NaN and has a finite number of
    milliseconds.  At the first segment with another time it stops: the file
    then holds the blocks of the segments before it, followed by the index
    line of that segment and nothing more. *)
Theorem write_srt_file_stops_at_bad_time :
  (forall segments,
     snd (write_srt_file segments) = true
     <-> Forall (fun segment => writable_segment segment = true) segments) /\
  (forall good bad rest,
     Forall (fun segment => writable_segment segment = true) good ->
     writable_segment bad = false ->
     write_srt_file (good ++ bad :: rest)%list
     = (fst (write_srt_file good)
          +:+ PyInt.decimal (N.of_nat (length good + 1)) +:+ newline,
        false)).
Proof.
  split.
  - unfold write_srt_file. intros segments. generalize 0%nat.
    induction segments as [|segment rest IH]; intros i.
    + split; [constructor|reflexivity].
    + rewrite Forall_cons.
      destruct (writable_segment segment) eqn:Hsegment.
      * destruct (write_srt_blocks_writable segment rest i Hsegment) as [block [Hblock _]].
        rewrite Hblock. cbn [snd]. rewrite (IH (S i)). tauto.
      * split; [|intros [H _]; discriminate H].
        destruct (write_srt_blocks_stops [] i segment rest (Forall_nil_2 _) Hsegment)
          as [Hstop _].
        cbn [app] in Hstop. rewrite Hstop. discriminate.
  - intros good bad rest Hgood Hbad.
    apply (write_srt_blocks_stops good 0 bad rest Hgood Hbad).
Qed.

Lemma write_srt_file_stops_at_bad_time_witness :
  write_srt_file
    ([TranscriptSegment PyFloat.zero (PyFloat.of_Z 3) "Chapter one"]
     ++ TranscriptSegment S754_nan (PyFloat.of_Z 5) "and so on" :: [])%list
  = (fst (write_srt_file [TranscriptSegment PyFloat.zero (PyFloat.of_Z 3) "Chapter one"])
       +:+ PyInt.decimal (N.of_nat (1 + 1)) +:+ newline,
     false).
Proof.
  apply (proj2 write_srt_file_stops_at_bad_time
           [TranscriptSegment PyFloat.zero (PyFloat.of_Z 3) "Chapter one"]
           (TranscriptSegment S754_nan (PyFloat.of_Z 5) "and so on") []).
  - repeat constructor.
  - reflexivity.
Defined.

(** ** The resolver: case, punctuation and decimal numerals *)

Lemma map_lstrip (f : ascii -> ascii) (p : ascii -> bool) (s : string) :
  (forall c, p (f c) = p c) ->
  Str.lstrip_by p (Str.map f s) = Str.map f (Str.lstrip_by p s).
Proof.
  intros Hp. induction s as [|c s IH]; [reflexivity|].
  cbn [Str.map Str.lstrip_by]. rewrite Hp. destruct (p c); [exact IH|reflexivity].
Qed.

Lemma map_rstrip (f : ascii -> ascii) (p : ascii -> bool) (s : string) :
  (forall c, p (f c) = p c) ->
  Str.rstrip_by p (Str.map f s) = Str.map f (Str.rstrip_by p s).
Proof.
  intros Hp. induction s as [|c s IH]; [reflexivity|].
  cbn [Str.map Str.rstrip_by]. rewrite IH, Hp.
  assert (Hempty : forall t, Str.is_empty (Str.map f t) = Str.is_empty t)
    by (intros [|? ?]; reflexivity).
  rewrite Hempty. destruct (Str.is_empty _ && p c); reflexivity.
Qed.

Lemma map_strip (f : ascii -> ascii) (p : ascii -> bool) (s : string) :
  (forall c, p (f c) = p c) ->
  Str.strip_by p (Str.map f s) = Str.map f (Str.strip_by p s).
Proof.
  intros Hp. unfold Str.strip_by. rewrite map_lstrip, map_rstrip by exact Hp.
  reflexivity.
Qed.

Lemma isspace_lower (c : ascii) : Char.isspace (Char.lower c) = Char.isspace c.
Proof. each_character c; vm_compute; reflexivity. Qed.

Lemma lower_lower_char (c : ascii) : Char.lower (Char.lower c) = Char.lower c.
Proof. each_character c; vm_compute; reflexivity. Qed.

Lemma lower_lower (s : string) : Str.lower (Str.lower s) = Str.lower s.
Proof.
  unfold Str.lower. induction s as [|c s IH]; [reflexivity|].
  cbn [Str.map]. rewrite lower_lower_char, IH. reflexivity.
Qed.

Lemma cleaned_lower (w : string) : cleaned (Str.lower w) = cleaned w.
Proof.
  unfold cleaned, Str.strip, Str.lower at 2.
  rewrite (map_strip Char.lower Char.isspace w isspace_lower).
  fold (Str.lower (Str.strip_by Char.isspace w)). rewrite lower_lower. reflexivity.
Qed.

Lemma map_snoc (f : ascii -> ascii) (s : string) (c : ascii) :
  Str.map f (Str.snoc s c) = Str.snoc (Str.map f s) (f c).
Proof.
  unfold Str.snoc. induction s as [|a s IH]; [reflexivity|].
  rewrite !append_cons. cbn [Str.map]. rewrite append_cons, IH. reflexivity.
Qed.

Lemma rstrip_snoc (p : ascii -> bool) (s : string) (c : ascii) :
  p c = true -> Str.rstrip_by p (Str.snoc s c) = Str.rstrip_by p s.
Proof.
  intros Hc. unfold Str.snoc. induction s as [|a s IH].
  - rewrite append_nil. cbn [Str.rstrip_by Str.is_empty andb]. rewrite Hc. reflexivity.
  - rewrite append_cons. cbn [Str.rstrip_by]. rewrite IH. reflexivity.
Qed.

Lemma lstrip_snoc (p : ascii -> bool) (s : string) (c : ascii) :
  p c = true ->
  Str.lstrip_by p (Str.snoc s c)
  = if Str.is_empty (Str.lstrip_by p s) then "" else Str.snoc (Str.lstrip_by p s) c.
Proof.
  intros Hc. unfold Str.snoc. induction s as [|a s IH].
  - rewrite append_nil. cbn [Str.lstrip_by Str.is_empty]. rewrite Hc. reflexivity.
  - rewrite append_cons. cbn [Str.lstrip_by].
    destruct (p a); [exact IH|]. cbn [Str.is_empty]. rewrite append_cons. reflexivity.
Qed.

Lemma strip_snoc (p : ascii -> bool) (s : string) (c : ascii) :
  p c = true -> Str.strip_by p (Str.snoc s c) = Str.strip_by p s.
Proof.
  intros Hc. unfold Str.strip_by. rewrite (lstrip_snoc _ _ _ Hc).
  destruct (Str.lstrip_by p s) as [|a t]; [reflexivity|].
  cbn [Str.is_empty]. apply rstrip_snoc, Hc.
Qed.

Lemma forallb_snoc (p : ascii -> bool) (s : string) (c : ascii) :
  Str.forallb p (Str.snoc s c) = Str.forallb p s && p c.
Proof.
  unfold Str.snoc. rewrite forallb_append. cbn [Str.forallb].
  rewrite andb_true_r. reflexivity.
Qed.

Lemma punctuation_facts (c : ascii) :
  is_punctuation c = true -> Char.lower c = c /\ Char.isspace c = false.
Proof.
  unfold is_punctuation. each_character c; vm_compute; intros H;
    try discriminate H; split; reflexivity.
Qed.

Lemma cleaned_snoc (w : string) (c : ascii) :
  is_punctuation c = true ->
  Str.forallb (fun a => negb (Char.isspace a)) w = true ->
  cleaned (Str.snoc w c) = cleaned w.
Proof.
  intros Hc Hw. destruct (punctuation_facts c Hc) as [Hlower Hspace].
  unfold cleaned, Str.strip.
  rewrite (strip_by_none _ w Hw).
  rewrite strip_by_none by (rewrite forallb_snoc, Hw, Hspace; reflexivity).
  unfold Str.lower. rewrite map_snoc, Hlower.
  apply strip_snoc, Hc.
Qed.

Lemma resolve_cleaned (word_to_num : string -> w2n_outcome) (a b : string) :
  cleaned a = cleaned b -> resolve word_to_num a = resolve word_to_num b.
Proof.
  intros H. unfold resolve. fold (cleaned a). fold (cleaned b).
  rewrite H. reflexivity.
Qed.

(** X15.  The resolver ignores the case of the word after "chapter" and a
    mark of punctuation (one of full stop, comma, question mark and
    exclamation mark) added at its end, and the test for the word "chapter"
    ignores the same: "Chapter", "CHAPTER" and "chapter," are the same
    marker, "XII" and "xii." the same numeral. *)
Theorem resolver_ignores_case_and_punctuation (word_to_num : string -> w2n_outcome) :
  (forall w, resolve word_to_num (Str.lower w) = resolve word_to_num w) /\
  (forall w c,
     is_punctuation c = true ->
     Str.forallb (fun a => negb (Char.isspace a)) w = true ->
     resolve word_to_num (Str.snoc w c) = resolve word_to_num w) /\
  (forall w, is_chapter_word (Str.lower w) = is_chapter_word w) /\
  (forall w c,
     is_punctuation c = true ->
     is_chapter_word (Str.snoc w c) = is_chapter_word w).
Proof.
  split; [|split; [|split]].
  - intros w. apply resolve_cleaned, cleaned_lower.
  - intros w c Hc Hw. apply resolve_cleaned, cleaned_snoc; assumption.
  - intros w. unfold is_chapter_word. rewrite lower_lower. reflexivity.
  - intros w c Hc. unfold is_chapter_word, Str.lower.
    rewrite map_snoc, (proj1 (punctuation_facts c Hc)).
    unfold Str.strip_chars. rewrite (strip_snoc _ _ _ Hc). reflexivity.
Qed.

Lemma resolver_ignores_case_and_punctuation_witness :
  resolve W2N.word_to_num (Str.snoc "XII" ".") = resolve W2N.word_to_num "XII".
Proof.
  apply (proj1 (proj2 (resolver_ignores_case_and_punctuation W2N.word_to_num))).
  - reflexivity.
  - reflexivity.
Defined.








(** ** The fragments of a title *)

Lemma title_parts_all (sentences : list string) :
  Forall (fun sentence => continues_after sentence = true) sentences ->
  title_parts sentences = sentences.
Proof.
  induction 1 as [|sentence rest Hcontinues _ IH]; [reflexivity|].
  cbn [title_parts]. rewrite Hcontinues, IH. reflexivity.
Qed.

Lemma title_parts_stop (before : list string) (sentence : string) (after : list string) :
  Forall (fun s => continues_after s = true) before ->
  continues_after sentence = false ->
  title_parts (before ++ sentence :: after)%list = (before ++ [sentence])%list.
Proof.
  intros Hbefore Hstop. induction Hbefore as [|s before Hs _ IH].
  - cbn [app title_parts]. rewrite Hstop. reflexivity.
  - cbn [app title_parts]. rewrite Hs, IH. reflexivity.
Qed.

(** X17.  The title is made of the sentence fragments up to and including
    the first one whose last word is neither an abbreviation nor a single
    letter; the fragments after it never reach the title.  The title has no
    whitespace at either end, and the empty text gives the empty title. *)
Theorem title_uses_leading_fragments (text : string) :
  (forall before sentence after,
     text <> "" ->
     split_sentences text = (before ++ sentence :: after)%list ->
     Forall (fun s => continues_after s = true) before ->
     continues_after sentence = false ->
     extract_title_from_text text
     = Str.strip (Str.rstrip_chars ".?!"
                    (Str.strip (Str.join " " (before ++ [sentence])%list)))) /\
  Str.strip (extract_title_from_text text) = extract_title_from_text text /\
  extract_title_from_text "" = "".
Proof.
  split; [|split; [|reflexivity]].
  - intros before sentence after Hne Hsplit Hbefore Hstop.
    unfold extract_title_from_text.
    destruct text as [|c text]; [congruence|]. cbn [Str.is_empty].
    rewrite Hsplit, (title_parts_stop _ _ _ Hbefore Hstop). reflexivity.
  - unfold extract_title_from_text.
    destruct (Str.is_empty text); [reflexivity|].
    unfold Str.strip. apply strip_strip.
Qed.

Lemma title_uses_leading_fragments_witness :
  extract_title_from_text "Mr. Smith went home. He left."
  = Str.strip (Str.rstrip_chars ".?!"
                 (Str.strip (Str.join " " (["Mr."] ++ ["Smith went home."])%list))).
Proof.
  apply (proj1 (title_uses_leading_fragments "Mr. Smith went home. He left.")
           ["Mr."] "Smith went home." ["He left."]).
  - discriminate.
  - vm_compute. reflexivity.
  - repeat constructor.
  - vm_compute. reflexivity.
Defined.

(** ** The blocks of a written transcript *)

Lemma rstrip_all (p : ascii -> bool) (w : string) :
  Str.forallb p w = true -> Str.rstrip_by p w = "".
Proof.
  induction w as [|c w IH]; [reflexivity|]. cbn [Str.forallb Str.rstrip_by].
  intros [Hc Hw]%andb_true_iff. rewrite (IH Hw), Hc. reflexivity.
Qed.

Lemma rstrip_append_stripped (p : ascii -> bool) (t w : string) :
  Str.forallb p w = true -> Str.rstrip_by p (t +:+ w) = Str.rstrip_by p t.
Proof.
  intros Hw. induction t as [|c t IH].
  - rewrite append_nil. apply rstrip_all, Hw.
  - rewrite append_cons. cbn [Str.rstrip_by]. rewrite IH. reflexivity.
Qed.

Lemma rstrip_append_kept (p : ascii -> bool) (a t : string) :
  Str.rstrip_by p t = t -> t <> "" -> Str.rstrip_by p (a +:+ t) = a +:+ t.
Proof.
  intros Ht Hne. induction a as [|c a IH]; [exact Ht|].
  rewrite append_cons. cbn [Str.rstrip_by]. rewrite IH.
  destruct (a +:+ t) as [|x y] eqn:Hat; [|reflexivity].
  destruct a; [rewrite append_nil in Hat; congruence|discriminate Hat].
Qed.

Lemma append_not_empty_r (a t : string) : t <> "" -> a +:+ t <> "".
Proof.
  intros Ht. destruct a; [rewrite append_nil; exact Ht|discriminate].
Qed.

Lemma prefix_blank_line_one (c : ascii) :
  String.prefix (String newline_char (String newline_char "")) (String c "") = false.
Proof. cbn [String.prefix]. destruct (ascii_dec newline_char c); reflexivity. Qed.

Lemma prefix_blank_line (c d : ascii) (tail : string) :
  String.prefix (String newline_char (String newline_char ""))
                (String c (String d tail))
  = Ascii.eqb c newline_char && Ascii.eqb d newline_char.
Proof.
  cbn [String.prefix].
  destruct (ascii_dec newline_char c) as [<-|Hc].
  - rewrite Ascii.eqb_refl.
    destruct (ascii_dec newline_char d) as [<-|Hd].
    + rewrite Ascii.eqb_refl. destruct tail; reflexivity.
    + symmetry. apply andb_false_intro2, Ascii.eqb_neq. congruence.
  - symmetry. apply andb_false_intro1, Ascii.eqb_neq. congruence.
Qed.

(** Splitting on the blank line. *)
Lemma split_blank_line (b : string) :
  forall cur,
    single_newlines b = true ->
    (forall rest,
       Str.split_from (newline +:+ newline) 0 cur (b +:+ newline +:+ newline +:+ rest)
       = (cur +:+ b) :: Str.split_from (newline +:+ newline) 0 "" rest) /\
    Str.split_from (newline +:+ newline) 0 cur b = [cur +:+ b].
Proof.
  change (newline +:+ newline) with (String newline_char (String newline_char "")).
  induction b as [|c b IH]; intros cur Hb; [discriminate Hb|].
  cbn [single_newlines] in Hb. destruct b as [|d b'].
  - apply negb_true_iff in Hb. split.
    + intros rest.
      change (String c "" +:+ newline +:+ newline +:+ rest)
        with (String c (String newline_char (String newline_char rest))).
      cbn [Str.split_from]. rewrite prefix_blank_line, Hb. cbn [andb].
      cbn [Str.split_from]. rewrite prefix_blank_line, !Ascii.eqb_refl.
      cbn [andb String.length Nat.pred Str.split_from]. reflexivity.
    + cbn [Str.split_from]. rewrite prefix_blank_line_one.
      cbn [Str.split_from]. reflexivity.
  - apply andb_true_iff in Hb. destruct Hb as [Hpair Hb].
    assert (Hprefix : forall tail,
              String.prefix (String newline_char (String newline_char ""))
                            (String c (String d tail)) = false).
    { intros tail. rewrite prefix_blank_line.
      destruct (Ascii.eqb c newline_char), (Ascii.eqb d newline_char);
        try reflexivity; discriminate Hpair. }
    destruct (IH (Str.snoc cur c) Hb) as [IH1 IH2]. split.
    + intros rest. rewrite !append_cons.
      change (Str.split_from ?sep 0 cur (String c (String d ?x)))
        with (if String.prefix sep (String c (String d x))
              then cur :: Str.split_from sep (Nat.pred (String.length sep)) "" (String d x)
              else Str.split_from sep 0 (Str.snoc cur c) (String d x)).
      rewrite Hprefix. rewrite <- append_cons, IH1, snoc_append. reflexivity.
    + change (Str.split_from ?sep 0 cur (String c (String d ?x)))
        with (if String.prefix sep (String c (String d x))
              then cur :: Str.split_from sep (Nat.pred (String.length sep)) "" (String d x)
              else Str.split_from sep 0 (Str.snoc cur c) (String d x)).
      rewrite Hprefix, IH2, snoc_append. reflexivity.
Qed.

Lemma split_joined_blocks (blocks : list string) :
  blocks <> [] ->
  Forall (fun b => single_newlines b = true) blocks ->
  Str.split (newline +:+ newline) (Str.join (newline +:+ newline) blocks) = blocks.
Proof.
  unfold Str.split, Str.join. intros Hne Hall.
  induction Hall as [|b rest Hb Hrest IH]; [congruence|].
  destruct rest as [|b' rest'].
  - cbn [String.concat]. rewrite (proj2 (split_blank_line b "" Hb)). reflexivity.
  - cbn [String.concat]. fold (String.concat (newline +:+ newline) (b' :: rest')).
    change (b +:+ (newline +:+ newline) +:+ ?x)
      with (b +:+ newline +:+ newline +:+ x).
    rewrite (proj1 (split_blank_line b "" Hb)). rewrite append_nil. f_equal.
    apply IH. discriminate.
Qed.

Lemma one_line_single (a : string) :
  one_line a = true -> a <> "" -> single_newlines a = true.
Proof.
  unfold one_line. induction a as [|c a IH]; [congruence|].
  cbn [Str.forallb]. intros [Hc Ha]%andb_true_iff _. cbn [single_newlines].
  destruct a as [|d a']; [exact Hc|].
  rewrite Hc. cbn [orb andb]. apply IH; [exact Ha|discriminate].
Qed.

Lemma single_newlines_line (a : string) (d : ascii) (b : string) :
  one_line a = true -> a <> "" ->
  Ascii.eqb d newline_char = false ->
  single_newlines (String d b) = true ->
  single_newlines (a +:+ newline +:+ String d b) = true.
Proof.
  unfold one_line. intros Ha Hne Hd Hb.
  change (newline +:+ String d b) with (String newline_char (String d b)).
  induction a as [|c a IH]; [congruence|].
  cbn [Str.forallb] in Ha. apply andb_true_iff in Ha. destruct Ha as [Hc Ha].
  rewrite append_cons. destruct a as [|c' a'].
  - rewrite append_nil.
    change (single_newlines (String c (String newline_char (String d b))))
      with ((negb (Ascii.eqb c newline_char) || negb (Ascii.eqb newline_char newline_char))
            && ((negb (Ascii.eqb newline_char newline_char) || negb (Ascii.eqb d newline_char))
                && single_newlines (String d b))).
    rewrite Hc, Hd, Hb. reflexivity.
  - rewrite append_cons.
    change (single_newlines (String c (String c' ?x)))
      with ((negb (Ascii.eqb c newline_char) || negb (Ascii.eqb c' newline_char))
            && single_newlines (String c' x)).
    rewrite Hc. cbn [orb andb]. rewrite <- append_cons.
    apply IH; [exact Ha|discriminate].
Qed.

Lemma decimal_one_line (s : string) : all_decimal s = true -> one_line s = true.
Proof. apply decimal_without. reflexivity. Qed.

Lemma one_line_append (a b : string) :
  one_line (a +:+ b) = one_line a && one_line b.
Proof. apply forallb_append. Qed.

Lemma format_srt_time_one_line (x : float) (t : string) :
  format_srt_time x = Some t ->
  one_line t = true /\ exists c rest, t = String c rest /\ Char.is_decimal c = true.
Proof.
  unfold format_srt_time.
  destruct (PyFloat.leb PyFloat.zero x) eqn:Hle; [|discriminate].
  destruct (PyFloat.round_half_even _) as [total|] eqn:Hround; [|discriminate].
  cbn [mbind option_bind]. intros [= <-].
  assert (Hnonneg : 0 <= total).
  { eapply round_half_even_nonneg; [|exact Hround]. apply (mul_sign x _ _ Hle). }
  destruct (format_zero_nonneg 2 (total / 3600000)) as [Dh Eh];
    [apply Z.div_pos; lia|].
  destruct (format_zero_nonneg 2 (total mod 3600000 / 60000)) as [Dm _];
    [apply Z.div_pos; [apply Z.mod_pos_bound|]; lia|].
  destruct (format_zero_nonneg 2 (total mod 60000 / 1000)) as [Ds _];
    [apply Z.div_pos; [apply Z.mod_pos_bound|]; lia|].
  destruct (format_zero_nonneg 3 (total mod 1000)) as [Dms _];
    [apply Z.mod_pos_bound; lia|].
  split.
  - rewrite !one_line_append.
    rewrite (decimal_one_line _ Dh), (decimal_one_line _ Dm),
      (decimal_one_line _ Ds), (decimal_one_line _ Dms). reflexivity.
  - pose proof (zfill_all_decimal 2 (Z.abs_N (total / 3600000))) as [_ Hne].
    rewrite <- Eh in Hne.
    destruct (PyInt.format_zero 2 (total / 3600000)) as [|c rest]; [congruence|].
    exists c. eexists. split; [rewrite append_cons; reflexivity|].
    cbn [all_decimal Str.forallb] in Dh. unfold all_decimal in Dh.
    cbn [Str.forallb] in Dh. apply andb_true_iff in Dh. apply Dh.
Qed.

Lemma plain_segment_times (segment : transcript_segment) :
  plain_segment segment = true ->
  exists start stop,
    format_srt_time (seg_start segment) = Some start /\
    format_srt_time (seg_end segment) = Some stop /\
    one_line (start +:+ " --> " +:+ stop) = true /\
    (exists c rest, start +:+ " --> " +:+ stop = String c rest /\
                    Char.is_decimal c = true) /\
    Str.strip (seg_text segment) <> "" /\
    one_line (Str.strip (seg_text segment)) = true.
Proof.
  unfold plain_segment, writable_segment.
  intros [[[[Hstart Hstop]%andb_true_iff Hne%negb_true_iff]%andb_true_iff
             Hline]%andb_true_iff _]%andb_true_iff.
  apply format_srt_time_defined in Hstart, Hstop.
  destruct Hstart as [start Hstart], Hstop as [stop Hstop].
  destruct (format_srt_time_one_line _ _ Hstart) as [L1 (c & rest & -> & Hc)].
  destruct (format_srt_time_one_line _ _ Hstop) as [L2 _].
  eexists _, stop. repeat split; [exact Hstart|exact Hstop| | | |exact Hline].
  - rewrite !one_line_append, L1, L2. reflexivity.
  - exists c. eexists. rewrite append_cons. split; [reflexivity|exact Hc].
  - intros Heq. rewrite Heq in Hne. discriminate Hne.
Qed.

Lemma decimal_head (c : ascii) : Char.is_decimal c = true ->
  Char.isspace c = false /\ Ascii.eqb c newline_char = false.
Proof. each_character c; vm_compute; intuition congruence. Qed.

Lemma one_line_not_space (s : string) :
  Str.forallb (fun c => negb (Char.isspace c)) s = true -> one_line s = true.
Proof.
  unfold one_line. induction s as [|c s IH]; [reflexivity|].
  cbn [Str.forallb]. intros [Hc Hs]%andb_true_iff. rewrite (IH Hs), andb_true_r.
  revert Hc. clear. each_character c; vm_compute; congruence.
Qed.

(** The block of a plain segment, as the scanner meets it. *)
Lemma srt_block_plain (i : nat) (segment : transcript_segment) :
  plain_segment segment = true ->
  single_newlines (srt_block i segment) = true /\
  Str.rstrip_by Char.isspace (srt_block i segment) = srt_block i segment /\
  (exists c rest, srt_block i segment = String c rest /\ Char.isspace c = false) /\
  exists start stop,
    format_srt_time (seg_start segment) = Some start /\
    format_srt_time (seg_end segment) = Some stop /\
    block_lines (srt_block i segment)
    = [PyInt.decimal (N.of_nat (i + 1)); start +:+ " --> " +:+ stop;
       Str.strip (seg_text segment)].
Proof.
  intros Hplain.
  destruct (plain_segment_times _ Hplain)
    as (start & stop & Hstart & Hstop & Ltimes & (c & rest & Htimes & Hc) & Hne & Ltext).
  destruct (decimal_all_decimal (N.of_nat (i + 1))) as [Dindex Nindex].
  pose proof (decimal_one_line _ Dindex) as Lindex.
  unfold srt_block. rewrite Hstart, Hstop. cbn [default from_option id].
  set (index := PyInt.decimal (N.of_nat (i + 1))) in *.
  set (times := start +:+ " --> " +:+ stop) in *.
  set (text := Str.strip (seg_text segment)) in *.
  assert (Hrtext : Str.rstrip_by Char.isspace text = text)
    by apply rstrip_rstrip.
  assert (Hrstrip : Str.rstrip_by Char.isspace
                      (index +:+ newline +:+ times +:+ newline +:+ text)
                    = index +:+ newline +:+ times +:+ newline +:+ text).
  { repeat (apply rstrip_append_kept; [|repeat apply append_not_empty_r; exact Hne]).
    exact Hrtext. }
  assert (Hhead : exists c' rest', index +:+ newline +:+ times +:+ newline +:+ text
                                   = String c' rest' /\ Char.isspace c' = false).
  { destruct index as [|c' index']; [congruence|].
    exists c'. eexists. split; [rewrite append_cons; reflexivity|].
    unfold all_decimal in Dindex. cbn [Str.forallb] in Dindex.
    apply andb_true_iff in Dindex. apply decimal_head, Dindex. }
  split; [|split; [exact Hrstrip|split; [exact Hhead|]]].
  - destruct text as [|d text'] eqn:Htext; [congruence|].
    assert (Hd : Ascii.eqb d newline_char = false).
    { unfold one_line in Ltext. cbn [Str.forallb] in Ltext.
      apply andb_true_iff in Ltext. apply negb_true_iff, Ltext. }
    rewrite Htimes. rewrite append_cons.
    apply single_newlines_line;
      [exact Lindex|exact Nindex|apply decimal_head, Hc|].
    rewrite <- append_cons, <- Htimes.
    apply single_newlines_line; [exact Ltimes|rewrite Htimes; discriminate|exact Hd|].
    apply one_line_single; [exact Ltext|discriminate].
  - exists start, stop. split; [reflexivity|]. split; [reflexivity|].
    unfold block_lines, Str.strip, Str.strip_by.
    destruct Hhead as (c' & rest' & Hblock & Hspace).
    replace (Str.lstrip_by Char.isspace
               (index +:+ newline +:+ times +:+ newline +:+ text))
      with (index +:+ newline +:+ times +:+ newline +:+ text).
    2:{ rewrite Hblock. cbn [Str.lstrip_by]. rewrite Hspace. reflexivity. }
    rewrite Hrstrip. unfold Str.split.
    change newline with (String newline_char "").
    rewrite !append_cons, !append_nil.
    rewrite (split_char_first newline_char index _ "" Lindex).
    rewrite (split_char_first newline_char times _ "" Ltimes).
    rewrite (split_char_none newline_char text "" Ltext).
    reflexivity.
Qed.

Lemma srt_blocks_lookup (segments : list transcript_segment) :
  forall i k, srt_blocks i segments !! k = srt_block (i + k) <$> segments !! k.
Proof.
  induction segments as [|segment rest IH]; intros i k; [reflexivity|].
  destruct k as [|k]; cbn [srt_blocks].
  - rewrite Nat.add_0_r. reflexivity.
  - change ((?x :: ?l) !! S k) with (l !! k). rewrite IH.
    replace (S i + k)%nat with (i + S k)%nat by lia. reflexivity.
Qed.

Lemma srt_blocks_length (segments : list transcript_segment) :
  forall i, length (srt_blocks i segments) = length segments.
Proof.
  induction segments as [|segment rest IH]; intros i; [reflexivity|].
  cbn [srt_blocks length]. rewrite IH. reflexivity.
Qed.

Lemma srt_blocks_plain (segments : list transcript_segment) :
  Forall (fun segment => plain_segment segment = true) segments ->
  forall i,
    Forall (fun b => single_newlines b = true) (srt_blocks i segments) /\
    Forall (fun b => Str.rstrip_by Char.isspace b = b /\ b <> "")
           (srt_blocks i segments).
Proof.
  induction 1 as [|segment rest Hplain _ IH]; intros i;
    [split; constructor|].
  destruct (srt_block_plain i segment Hplain) as (Hs & Hr & (c & r & Hc & _) & _).
  destruct (IH (S i)) as [IH1 IH2]. cbn [srt_blocks].
  split; constructor; auto. split; [exact Hr|]. rewrite Hc. discriminate.
Qed.

(** What [write_srt_file] writes for plain segments: their blocks, each
    followed by a blank line. *)
Lemma write_srt_blocks_plain (segments : list transcript_segment) :
  Forall (fun segment => plain_segment segment = true) segments ->
  forall i,
    write_srt_blocks i segments
    = (fold_right (fun b later => b +:+ newline +:+ newline +:+ later) ""
                  (srt_blocks i segments), true).
Proof.
  induction 1 as [|segment rest Hplain _ IH]; intros i; [reflexivity|].
  destruct (plain_segment_times _ Hplain) as (start & stop & Hstart & Hstop & _).
  cbn [write_srt_blocks srt_blocks fold_right]. unfold srt_block.
  rewrite Hstart, Hstop, IH. cbn [default from_option id].
  rewrite !append_assoc. reflexivity.
Qed.

Lemma blocks_written_joined (blocks : list string) :
  blocks <> [] ->
  fold_right (fun b later => b +:+ newline +:+ newline +:+ later) "" blocks
  = Str.join (newline +:+ newline) blocks +:+ newline +:+ newline.
Proof.
  unfold Str.join. induction blocks as [|b rest IH]; [congruence|]. intros _.
  cbn [fold_right]. destruct rest as [|b' rest'].
  - cbn [fold_right String.concat]. reflexivity.
  - rewrite IH by discriminate.
    change (String.concat ?sep (b :: b' :: rest'))
      with (b +:+ sep +:+ String.concat sep (b' :: rest')).
    rewrite !append_assoc. reflexivity.
Qed.

Lemma rstrip_joined (blocks : list string) :
  blocks <> [] ->
  Forall (fun b => Str.rstrip_by Char.isspace b = b /\ b <> "") blocks ->
  Str.rstrip_by Char.isspace (Str.join (newline +:+ newline) blocks)
  = Str.join (newline +:+ newline) blocks /\
  Str.join (newline +:+ newline) blocks <> "".
Proof.
  unfold Str.join. intros Hne Hall.
  induction Hall as [|b rest [Hb Nb] _ IH]; [congruence|].
  destruct rest as [|b' rest'].
  - cbn [String.concat]. split; assumption.
  - change (String.concat ?sep (b :: b' :: rest'))
      with (b +:+ sep +:+ String.concat sep (b' :: rest')).
    destruct IH as [IH1 IH2]; [discriminate|]. split.
    + repeat (apply rstrip_append_kept; [|repeat apply append_not_empty_r; exact IH2]).
      exact IH1.
    + repeat apply append_not_empty_r. exact IH2.
Qed.

(** Text without a carriage return is read as it is stored. *)
Lemma read_text_plain (stored : string) :
  no_carriage_return stored = true -> read_text stored = stored.
Proof.
  unfold no_carriage_return. induction stored as [|c rest IH]; [reflexivity|].
  cbn [Str.forallb read_text]. intros [Hc Hrest]%andb_true_iff.
  apply negb_true_iff in Hc. rewrite Hc, (IH Hrest). reflexivity.
Qed.

Lemma no_carriage_return_append (s t : string) :
  no_carriage_return (s +:+ t) = no_carriage_return s && no_carriage_return t.
Proof. apply forallb_append. Qed.

Lemma decimal_no_carriage_return (s : string) :
  all_decimal s = true -> no_carriage_return s = true.
Proof.
  unfold all_decimal, no_carriage_return.
  induction s as [|c s IH]; [reflexivity|]. cbn [Str.forallb].
  intros [Hc Hs]%andb_true_iff. rewrite (IH Hs), andb_true_r.
  revert Hc. clear. each_character c; vm_compute; congruence.
Qed.

Lemma format_srt_time_no_carriage_return (x : float) (t : string) :
  format_srt_time x = Some t -> no_carriage_return t = true.
Proof.
  unfold format_srt_time.
  destruct (PyFloat.leb PyFloat.zero x) eqn:Hle; [|discriminate].
  destruct (PyFloat.round_half_even _) as [total|] eqn:Hround; [|discriminate].
  cbn [mbind option_bind]. intros [= <-].
  assert (Hnonneg : 0 <= total).
  { eapply round_half_even_nonneg; [|exact Hround]. apply (mul_sign x _ _ Hle). }
  destruct (format_zero_nonneg 2 (total / 3600000)) as [Dh _];
    [apply Z.div_pos; lia|].
  destruct (format_zero_nonneg 2 (total mod 3600000 / 60000)) as [Dm _];
    [apply Z.div_pos; [apply Z.mod_pos_bound|]; lia|].
  destruct (format_zero_nonneg 2 (total mod 60000 / 1000)) as [Ds _];
    [apply Z.div_pos; [apply Z.mod_pos_bound|]; lia|].
  destruct (format_zero_nonneg 3 (total mod 1000)) as [Dms _];
    [apply Z.mod_pos_bound; lia|].
  rewrite !no_carriage_return_append.
  rewrite (decimal_no_carriage_return _ Dh), (decimal_no_carriage_return _ Dm),
    (decimal_no_carriage_return _ Ds), (decimal_no_carriage_return _ Dms).
  reflexivity.
Qed.

(** What [write_srt_file] writes for plain segments has no carriage
    return. *)
Lemma written_no_carriage_return (segments : list transcript_segment) :
  Forall (fun segment => plain_segment segment = true) segments ->
  forall i, no_carriage_return (fst (write_srt_blocks i segments)) = true.
Proof.
  induction 1 as [|segment rest Hplain Hrest IH]; intros i; [reflexivity|].
  rewrite (write_srt_blocks_plain (segment :: rest)) by (constructor; assumption).
  specialize (IH (S i)). rewrite (write_srt_blocks_plain rest Hrest) in IH.
  cbn [fst srt_blocks fold_right] in *.
  destruct (plain_segment_times _ Hplain) as (start & stop & Hstart & Hstop & _).
  assert (Htext : no_carriage_return (Str.strip (seg_text segment)) = true).
  { unfold plain_segment in Hplain. apply andb_true_iff in Hplain. apply Hplain. }
  unfold srt_block. rewrite Hstart, Hstop. cbn [default from_option id].
  rewrite !no_carriage_return_append.
  rewrite (decimal_no_carriage_return _ (proj1 (decimal_all_decimal _))).
  rewrite (format_srt_time_no_carriage_return _ _ Hstart).
  rewrite (format_srt_time_no_carriage_return _ _ Hstop).
  rewrite Htext, IH. reflexivity.
Qed.

(** X18.  A transcript written by [write_srt_file] is read back block by
    block: when every segment can be written and its stripped text is one
    non-empty line (it has neither a line feed nor a carriage return), the
    file is written to its end and, read in text mode, is split by the
    scanner on blank lines into one block per segment, in order, whose lines
    are the index (from 1), the time line and the stripped text. *)
Theorem written_transcript_blocks (segments : list transcript_segment) :
  segments <> [] ->
  Forall (fun segment => plain_segment segment = true) segments ->
  let blocks := transcript_blocks (read_text (fst (write_srt_file segments))) in
  snd (write_srt_file segments) = true /\
  length blocks = length segments /\
  forall (i : nat) (segment : transcript_segment),
    segments !! i = Some segment ->
    exists block start stop,
      blocks !! i = Some block /\
      format_srt_time (seg_start segment) = Some start /\
      format_srt_time (seg_end segment) = Some stop /\
      block_lines block
      = [PyInt.decimal (N.of_nat (i + 1)); start +:+ " --> " +:+ stop;
         Str.strip (seg_text segment)].
Proof.
  intros Hne Hplain. unfold transcript_blocks, write_srt_file.
  rewrite (read_text_plain _ (written_no_carriage_return _ Hplain 0)).
  rewrite (write_srt_blocks_plain _ Hplain 0). cbn [fst snd].
  destruct (srt_blocks_plain _ Hplain 0) as [Hsingle Hstripped].
  assert (Hblocks : srt_blocks 0 segments <> []).
  { destruct segments; [congruence|discriminate]. }
  rewrite (blocks_written_joined _ Hblocks).
  destruct (rstrip_joined _ Hblocks Hstripped) as [Hr Hj].
  assert (Hstrip : Str.strip (Str.join (newline +:+ newline) (srt_blocks 0 segments)
                              +:+ newline +:+ newline)
                   = Str.join (newline +:+ newline) (srt_blocks 0 segments)).
  { unfold Str.strip, Str.strip_by.
    assert (Hhead : exists c rest,
               Str.join (newline +:+ newline) (srt_blocks 0 segments)
               = String c rest /\ Char.isspace c = false).
    { destruct segments as [|segment rest]; [congruence|].
      apply Forall_cons in Hplain. destruct Hplain as [Hfirst _].
      destruct (srt_block_plain 0 segment Hfirst) as (_ & _ & (c & r & Hc & Hspace) & _).
      exists c. unfold Str.join. cbn [srt_blocks String.concat].
      destruct (srt_blocks 1 rest); rewrite Hc;
        [|rewrite append_cons]; eexists; (split; [reflexivity|exact Hspace]). }
    destruct Hhead as (c & rest & Hc & Hspace).
    replace (Str.lstrip_by Char.isspace
               (Str.join (newline +:+ newline) (srt_blocks 0 segments)
                +:+ newline +:+ newline))
      with (Str.join (newline +:+ newline) (srt_blocks 0 segments)
            +:+ newline +:+ newline).
    2:{ rewrite Hc, append_cons. cbn [Str.lstrip_by]. rewrite Hspace. reflexivity. }
    rewrite rstrip_append_stripped by reflexivity. exact Hr. }
  rewrite Hstrip, (split_joined_blocks _ Hblocks Hsingle).
  cbv zeta. split; [reflexivity|]. split; [apply srt_blocks_length|].
  intros i segment Hi.
  assert (Hseg : plain_segment segment = true).
  { rewrite Forall_lookup in Hplain. exact (Hplain i segment Hi). }
  destruct (srt_block_plain i segment Hseg) as (_ & _ & _ & start & stop & H1 & H2 & H3).
  exists (srt_block i segment), start, stop.
  rewrite srt_blocks_lookup, Hi. cbn [fmap option_fmap option_map Nat.add].
  repeat split; assumption.
Qed.

Lemma written_transcript_blocks_witness :
  snd (write_srt_file
         [TranscriptSegment PyFloat.zero (PyFloat.of_Z 3) " Chapter one ";
          TranscriptSegment (PyFloat.of_Z 3) (PyFloat.of_Z 5) "It began."]) = true /\
  length (transcript_blocks
            (read_text (fst (write_srt_file
               [TranscriptSegment PyFloat.zero (PyFloat.of_Z 3) " Chapter one ";
                TranscriptSegment (PyFloat.of_Z 3) (PyFloat.of_Z 5) "It began."]))))
  = 2%nat.
Proof.
  destruct (written_transcript_blocks
              [TranscriptSegment PyFloat.zero (PyFloat.of_Z 3) " Chapter one ";
               TranscriptSegment (PyFloat.of_Z 3) (PyFloat.of_Z 5) "It began."])
    as (Hdone & Hlength & _).
  - discriminate.
  - repeat (constructor; [vm_compute; reflexivity|]). constructor.
  - split; [exact Hdone|exact Hlength].
Defined.
